(** * Booking lifecycle engine: a shallow embedding of the Express routes

    The development follows the server code of the marketplace:
    - [models/Booking.js] (the Mongoose schema of a booking),
    - the booking router ([GET /:id/otp], [PUT /:id], [PATCH /:id/status],
      [POST /:id/dispute], [POST /:id/review]),
    - the vendor router ([PATCH /bookings/:bookingId/status]),
    - the admin router ([PATCH /disputes/:id/resolve]).

    A route handler loads one booking document, mutates it in memory, and
    either answers early with an error (nothing is written) or calls
    [booking.save()] and answers with the document.  This is modelled by a
    small state-and-early-exit monad over the in-memory document. *)

From Stdlib Require Import ZArith List String Ascii Bool Lia DecimalString.
From Stdlib Require DecimalFacts DecimalPos DecimalZ.
Import ListNotations.
Open Scope string_scope.
Open Scope Z_scope.

Set Implicit Arguments.

(** ** Data model (models/Booking.js) *)

(** Mongo object identifiers, compared with [.equals]. *)
Definition ObjectId := string.

(** [status.enum] of the schema. *)
Inductive BookingStatus :=
| Pending | Confirmed | InProgress | Completed
| Cancelled | VerificationPending | Rejected | Reported.

(** [payment.status.enum] of the schema. *)
Inductive PaymentStatus :=
| PayPending | PaidToPlatform | PayoutPending
| PaidToVendor | RefundPending | Refunded.

(** [dispute.status.enum] of the schema. *)
Inductive DisputeStatus := DisputeOpen | UnderReview | DisputeResolved.

Definition statusName (s : BookingStatus) : string :=
  match s with
  | Pending => "pending"
  | Confirmed => "confirmed"
  | InProgress => "in-progress"
  | Completed => "completed"
  | Cancelled => "cancelled"
  | VerificationPending => "verification-pending"
  | Rejected => "rejected"
  | Reported => "reported"
  end.

Definition allStatuses : list BookingStatus :=
  [Pending; Confirmed; InProgress; Completed;
   Cancelled; VerificationPending; Rejected; Reported].

(** The enum value a request string denotes, if any.  A string outside the
    enum cannot be stored: Mongoose refuses it when the document is saved. *)
Definition statusOfString (s : string) : option BookingStatus :=
  find (fun st => statusName st =? s)%string allStatuses.

Definition status_eqb (a b : BookingStatus) : bool :=
  (statusName a =? statusName b)%string.

Record Payment := mkPayment {
  pay_status : PaymentStatus;
  transactionId : option string;
  payoutId : option string;
  paidAt : option Z;
  payoutAt : option Z;
  pay_notes : option string
}.

Record Address := mkAddress {
  street : option string;
  city : option string;
  zipCode : option string
}.

Record Notes := mkNotes {
  customerNotes : option string;
  vendorNotes : option string
}.

(** [rating.score] is a Number with [min: 1] and [max: 5]; it is not
    required.  Scores are taken as integers. *)
Record Rating := mkRating {
  score : option Z;
  review : option string;
  rating_date : option Z
}.

Record Dispute := mkDispute {
  raisedBy : option ObjectId;
  reason : option string;
  description : option string;
  dispute_status : option DisputeStatus;
  createdAt : option Z;
  resolution : option string;
  resolvedBy : option ObjectId;
  resolvedAt : option Z
}.

(** One element of [timeline]; [status] is a free string there. *)
Record TimelineEntry := mkEntry {
  entry_status : string;
  entry_note : string;
  entry_timestamp : Z
}.

(** The fields of a booking that the modelled routes read or write.
    [vendorUser] is [booking.vendor?.user?._id] after population: the
    account of the assigned vendor, when the vendor document exists. *)
Record Booking := mkBooking {
  customer : ObjectId;
  vendorUser : option ObjectId;
  status : BookingStatus;
  scheduledDate : Z;
  payment : option Payment;
  address : option Address;
  notes : option Notes;
  rating : option Rating;
  completionOtp : option string;
  completionOtpExpires : option Z;
  dispute : option Dispute;
  timeline : list TimelineEntry
}.

(** [req.user], as resolved by [authenticateToken]. *)
Record User := mkUser {
  user_id : ObjectId;
  role : string
}.

(** What a handler takes from outside: the clock ([new Date()], in
    milliseconds) and the draw [Math.floor(Math.random() * 900000)]. *)
Record Env := mkEnv {
  now : Z;
  draw : Z
}.

(** ** Field updates *)

Definition set_status (s : BookingStatus) (b : Booking) : Booking :=
  mkBooking b.(customer) b.(vendorUser) s b.(scheduledDate) b.(payment)
    b.(address) b.(notes) b.(rating) b.(completionOtp)
    b.(completionOtpExpires) b.(dispute) b.(timeline).

Definition set_scheduledDate (d : Z) (b : Booking) : Booking :=
  mkBooking b.(customer) b.(vendorUser) b.(status) d b.(payment)
    b.(address) b.(notes) b.(rating) b.(completionOtp)
    b.(completionOtpExpires) b.(dispute) b.(timeline).

Definition set_payment (p : option Payment) (b : Booking) : Booking :=
  mkBooking b.(customer) b.(vendorUser) b.(status) b.(scheduledDate) p
    b.(address) b.(notes) b.(rating) b.(completionOtp)
    b.(completionOtpExpires) b.(dispute) b.(timeline).

Definition set_address (a : option Address) (b : Booking) : Booking :=
  mkBooking b.(customer) b.(vendorUser) b.(status) b.(scheduledDate)
    b.(payment) a b.(notes) b.(rating) b.(completionOtp)
    b.(completionOtpExpires) b.(dispute) b.(timeline).

Definition set_notes (n : option Notes) (b : Booking) : Booking :=
  mkBooking b.(customer) b.(vendorUser) b.(status) b.(scheduledDate)
    b.(payment) b.(address) n b.(rating) b.(completionOtp)
    b.(completionOtpExpires) b.(dispute) b.(timeline).

Definition set_rating (r : option Rating) (b : Booking) : Booking :=
  mkBooking b.(customer) b.(vendorUser) b.(status) b.(scheduledDate)
    b.(payment) b.(address) b.(notes) r b.(completionOtp)
    b.(completionOtpExpires) b.(dispute) b.(timeline).

Definition set_completionOtp (o : option string) (b : Booking) : Booking :=
  mkBooking b.(customer) b.(vendorUser) b.(status) b.(scheduledDate)
    b.(payment) b.(address) b.(notes) b.(rating) o
    b.(completionOtpExpires) b.(dispute) b.(timeline).

Definition set_completionOtpExpires (e : option Z) (b : Booking) : Booking :=
  mkBooking b.(customer) b.(vendorUser) b.(status) b.(scheduledDate)
    b.(payment) b.(address) b.(notes) b.(rating) b.(completionOtp)
    e b.(dispute) b.(timeline).

Definition set_dispute (d : option Dispute) (b : Booking) : Booking :=
  mkBooking b.(customer) b.(vendorUser) b.(status) b.(scheduledDate)
    b.(payment) b.(address) b.(notes) b.(rating) b.(completionOtp)
    b.(completionOtpExpires) d b.(timeline).

(** [booking.timeline.push(e)]. *)
Definition push_timeline (e : TimelineEntry) (b : Booking) : Booking :=
  mkBooking b.(customer) b.(vendorUser) b.(status) b.(scheduledDate)
    b.(payment) b.(address) b.(notes) b.(rating) b.(completionOtp)
    b.(completionOtpExpires) b.(dispute) (b.(timeline) ++ [e]).

(** [payment], [notes] and [dispute] are nested paths of the schema, not
    sub-documents: on a loaded document [booking.payment], [booking.notes]
    and [booking.dispute] are always objects, so a test such as
    [if (booking.payment)] or [!booking.dispute] never fails for want of the
    sub-record.  [None] stands for a sub-record of which no field has been
    stored; reading it gives the sub-record with its defaults
    ([payment.status] is [pending] by default), and an assignment to one of
    its fields stores it. *)
Definition paymentOf (b : Booking) : Payment :=
  match b.(payment) with
  | Some p => p
  | None => mkPayment PayPending None None None None None
  end.

Definition notesOf (b : Booking) : Notes :=
  match b.(notes) with
  | Some n => n
  | None => mkNotes None None
  end.

Definition disputeOf (b : Booking) : Dispute :=
  match b.(dispute) with
  | Some d => d
  | None => mkDispute None None None None None None None None
  end.

(** [if (booking.payment) booking.payment.status = s]: the test always
    holds, and the status is written. *)
Definition set_payment_status (s : PaymentStatus) (b : Booking) : Booking :=
  let p := paymentOf b in
  set_payment
    (Some (mkPayment s p.(transactionId) p.(payoutId) p.(paidAt)
             p.(payoutAt) p.(pay_notes))) b.

(** The payment status as stored: [None] when nothing of the payment is
    stored, which a reader sees as the default [pending]. *)
Definition payment_status (b : Booking) : option PaymentStatus :=
  option_map pay_status b.(payment).

(** ** JavaScript values *)

(** Truthiness of an optional string: [undefined] and [''] are falsy. *)
Definition truthy (o : option string) : bool :=
  match o with
  | Some s => negb (s =? "")%string
  | None => false
  end.

(** [a === b] on optional strings. *)
Definition strictEq (a b : option string) : bool :=
  match a, b with
  | Some x, Some y => (x =? y)%string
  | None, None => true
  | _, _ => false
  end.

(** [list.includes(s)]. *)
Definition includes (s : string) (l : list string) : bool :=
  existsb (String.eqb s) l.

Definition statusIn (s : BookingStatus) (l : list BookingStatus) : bool :=
  existsb (status_eqb s) l.

(** [id.equals(other)] on a possibly missing reference. *)
Definition idEquals (o : option ObjectId) (id : ObjectId) : bool :=
  match o with
  | Some x => (x =? id)%string
  | None => false
  end.

(** The double-quote character, for the messages that quote a value. *)
Definition dq : string := String (ascii_of_nat 34) EmptyString.

(** [n.toString()] for an integer. *)
Definition toString (n : Z) : string := NilZero.string_of_int (Z.to_int n).

(** [Math.floor(100000 + Math.random() * 900000).toString()]. *)
Definition generateOtp (env : Env) : string := toString (100000 + env.(draw)).

(** [new Date(Date.now() + 10 * 60 * 1000)]. *)
Definition otpWindow : Z := 10 * 60 * 1000.
Definition otpExpiry (env : Env) : Z := env.(now) + otpWindow.

(** ** The handler monad *)

(** A running handler holds the loaded document.  It either answers early
    ([Reply code error], nothing saved) or goes on with a value and the
    document as mutated so far. *)
Inductive Step (A : Type) :=
| Reply (code : Z) (error : string)
| Next (a : A) (doc : Booking).
Arguments Reply {A} code error.
Arguments Next {A} a doc.

Definition Handler (A : Type) := Booking -> Step A.

Definition ret {A} (a : A) : Handler A := fun doc => Next a doc.

Definition bind {A B} (h : Handler A) (k : A -> Handler B) : Handler B :=
  fun doc =>
    match h doc with
    | Reply c e => Reply c e
    | Next a doc' => k a doc'
    end.

Notation "x <- h ;; k" := (bind h (fun x => k))
  (at level 61, h at next level, right associativity).
Notation "h ;; k" := (bind h (fun _ => k))
  (at level 61, right associativity).

(** [return res.status(code).json({ error })]. *)
Definition respond {A} (code : Z) (error : string) : Handler A :=
  fun _ => Reply code error.

(** Read the document as it stands. *)
Definition load : Handler Booking := fun doc => Next doc doc.

(** Assign to the in-memory document. *)
Definition update (f : Booking -> Booking) : Handler unit :=
  fun doc => Next tt (f doc).

(** [if (c) { h }]. *)
Definition when (c : bool) (h : Handler unit) : Handler unit :=
  if c then h else ret tt.

(** The result of a route that ends with [await booking.save()] and
    [res.json(booking)]: [Next tt doc] is a 200 answer with [doc] saved. *)
Definition Outcome := Step unit.
Definition Saved (doc : Booking) : Outcome := Next tt doc.

(** [Booking.findById] followed by the handler; [missing] is the answer
    for a booking that does not exist. *)
Definition withBooking {A} (found : option Booking) (missing : string)
    (h : Handler A) : Step A :=
  match found with
  | None => Reply 404 missing
  | Some doc => h doc
  end.

(** The stored record after the request. *)
Definition persisted {A} (stored : Booking) (o : Step A) : Booking :=
  match o with
  | Reply _ _ => stored
  | Next _ doc => doc
  end.

(** ** PATCH /:id/status (booking router) *)

Record StatusBody := mkStatusBody {
  body_status : string;
  body_notes : option string;
  body_otp : option string
}.

Definition validStatuses : list string :=
  ["pending"; "confirmed"; "in-progress"; "completed"; "cancelled";
   "verification-pending"; "rejected"].

Definition allowedVendorStatuses : list string :=
  ["confirmed"; "rejected"; "in-progress"; "verification-pending";
   "cancelled"; "completed"].

(** [booking.status = status].  The field only holds values of the enum; a
    string outside it is refused by the schema when the document is saved,
    and the route answers 500 from its [catch]. *)
Definition assignStatus (s : string) : Handler unit :=
  match statusOfString s with
  | Some st => update (set_status st)
  | None => respond 500 "Booking validation failed: status"
  end.

(** The block that stores the notes of a status change under the role of
    the sender. *)
Definition writeRoleNotes (r : string) (n : string) (b : Booking) : Booking :=
  let cur := match b.(notes) with
             | Some x => x
             | None => mkNotes None None
             end in
  if (r =? "customer")%string then
    set_notes (Some (mkNotes (Some n) cur.(vendorNotes))) b
  else if (r =? "vendor")%string then
    set_notes (Some (mkNotes cur.(customerNotes) (Some n))) b
  else set_notes (Some cur) b.

(** [notes || fallback]. *)
Definition orElse (o : option string) (fallback : string) : string :=
  match o with
  | Some s => if (s =? "")%string then fallback else s
  | None => fallback
  end.

Definition isCustomerOf (user : User) (b : Booking) : bool :=
  (b.(customer) =? user.(user_id))%string.

Definition isVendorOf (user : User) (b : Booking) : bool :=
  idEquals b.(vendorUser) user.(user_id).

Definition isAdmin (user : User) : bool := (user.(role) =? "admin")%string.

(** The OTP verification block, entered when [status === 'completed'] and
    the booking is [verification-pending]. *)
Definition verifyCompletion (user : User) (body : StatusBody) : Handler unit :=
  booking <- load ;;
  (if isVendorOf user booking then
     when (negb (truthy body.(body_otp)))
       (respond 400 "OTP is required to complete the booking.") ;;
     when (negb (strictEq booking.(completionOtp) body.(body_otp)))
       (respond 400 "Invalid OTP provided.")
   else
     when (negb (isAdmin user))
       (respond 403 "Only the vendor or an admin can complete this booking.")) ;;
  update (set_completionOtp None) ;;
  update (set_payment_status PayoutPending).

Definition customerRules (body : StatusBody) : Handler unit :=
  when (negb (body.(body_status) =? "cancelled")%string)
    (respond 403 "As a customer, you can only cancel a booking.") ;;
  booking <- load ;;
  when (statusIn booking.(status) [Completed; Cancelled; Rejected])
    (respond 400 ("Cannot cancel a booking that is already "
                  ++ statusName booking.(status) ++ ".")).

Definition vendorRules (body : StatusBody) : Handler unit :=
  when (negb (includes body.(body_status) allowedVendorStatuses))
    (respond 403 ("As a vendor, you cannot set the status to '"
                  ++ body.(body_status) ++ "'.")) ;;
  booking <- load ;;
  when ((body.(body_status) =? "completed")%string
        && negb (status_eqb booking.(status) VerificationPending))
    (respond 400 "Cannot complete a booking directly. Please use the OTP verification flow.").

Definition changeStatus (env : Env) (user : User) (body : StatusBody)
    : Handler unit :=
  booking <- load ;;
  let isCustomer := isCustomerOf user booking in
  let isVendor := isVendorOf user booking in
  when (negb isCustomer && negb isVendor && negb (isAdmin user))
    (respond 403 "Access denied. You cannot update this booking.") ;;
  when ((body.(body_status) =? "completed")%string
        && status_eqb booking.(status) VerificationPending)
    (verifyCompletion user body) ;;
  when isCustomer (customerRules body) ;;
  when isVendor (vendorRules body) ;;
  when (body.(body_status) =? "verification-pending")%string
    (update (set_completionOtp (Some (generateOtp env))) ;;
     update (set_completionOtpExpires (Some (otpExpiry env)))) ;;
  assignStatus body.(body_status) ;;
  when (truthy body.(body_notes))
    (update (writeRoleNotes user.(role) (orElse body.(body_notes) ""))) ;;
  update (push_timeline
            (mkEntry body.(body_status)
               (orElse body.(body_notes)
                  ("Status updated to " ++ body.(body_status)
                   ++ " by " ++ user.(role)))
               env.(now))).

Definition patchStatus (env : Env) (user : User) (body : StatusBody)
    (found : option Booking) : Outcome :=
  if negb (includes body.(body_status) validStatuses) then
    Reply 400 ("Invalid status provided: " ++ body.(body_status) ++ ".")
  else withBooking found "Booking not found" (changeStatus env user body).

(** ** PATCH /bookings/:bookingId/status (vendor router) *)

Record VendorStatusBody := mkVendorStatusBody {
  vs_status : string;
  vs_vendorNotes : option string
}.

Definition vendorRouteStatuses : list string :=
  ["confirmed"; "in-progress"; "verification-pending"; "cancelled"].

Definition vendorChangeStatus (env : Env) (body : VendorStatusBody)
    : Handler unit :=
  assignStatus body.(vs_status) ;;
  update (fun b => match b.(notes) with
                   | Some _ => b
                   | None => set_notes (Some (mkNotes None None)) b
                   end) ;;
  when (truthy body.(vs_vendorNotes))
    (update (writeRoleNotes "vendor" (orElse body.(vs_vendorNotes) ""))) ;;
  update (push_timeline
            (mkEntry body.(vs_status)
               (orElse body.(vs_vendorNotes)
                  ("Status updated to " ++ body.(vs_status)))
               env.(now))).

(** [authorizeRole(['vendor'])], then [checkVendorVerification] on the
    vendor profile of the sender ([verification] is its
    [verificationStatus], [None] when there is no profile), then the
    handler. *)
Definition vendorPatchStatus (env : Env) (user : User)
    (verification : option string) (body : VendorStatusBody)
    (found : option Booking) : Outcome :=
  if negb (includes user.(role) ["vendor"]) then Reply 403 "Access denied"
  else match verification with
  | None => Reply 404 "Vendor profile not found."
  | Some v =>
      if negb (v =? "verified")%string then
        Reply 403 ("Access Forbidden. Vendor not verified (Status: "
                   ++ v ++ ")")
      else if negb (includes body.(vs_status) vendorRouteStatuses) then
        Reply 400 "Invalid status update. Allowed statuses are: confirmed, in-progress, verification-pending, cancelled."
      else withBooking found "Booking not found."
             (vendorChangeStatus env body)
  end.

(** ** GET /:id/otp *)

Definition otpStale (env : Env) (b : Booking) : bool :=
  negb (truthy b.(completionOtp))
  || match b.(completionOtpExpires) with
     | None => true
     | Some e => e <? env.(now)
     end.

Definition fetchOtp (env : Env) (user : User) : Handler (option string) :=
  booking <- load ;;
  when (negb (isCustomerOf user booking))
    (respond 403 "Access denied. You are not the customer for this booking.") ;;
  when (negb (status_eqb booking.(status) VerificationPending))
    (respond 400 "OTP is only available for bookings pending verification.") ;;
  when (otpStale env booking)
    (update (set_completionOtp (Some (generateOtp env))) ;;
     update (set_completionOtpExpires (Some (otpExpiry env)))) ;;
  current <- load ;;
  ret current.(completionOtp).

Definition getOtp (env : Env) (user : User) (found : option Booking)
    : Step (option string) :=
  withBooking found "Booking not found." (fetchOtp env user).

(** ** POST /:id/dispute *)

Record DisputeBody := mkDisputeBody {
  d_reason : option string;
  d_description : option string
}.

Definition reportableStatuses : list BookingStatus :=
  [InProgress; VerificationPending; Completed].

Definition disputeIsOpen (b : Booking) : bool :=
  match b.(dispute) with
  | Some d => match d.(dispute_status) with
              | Some DisputeOpen => true
              | _ => false
              end
  | None => false
  end.

Definition raiseDispute (env : Env) (user : User) (body : DisputeBody)
    : Handler unit :=
  booking <- load ;;
  when (negb (isCustomerOf user booking) && negb (isVendorOf user booking))
    (respond 403 "You are not authorized to report an issue for this booking.") ;;
  when (negb (statusIn booking.(status) reportableStatuses))
    (respond 400 ("Cannot report an issue for a booking with status "
                  ++ dq ++ statusName booking.(status) ++ dq ++ ".")) ;;
  when (disputeIsOpen booking)
    (respond 400 "An issue has already been reported for this booking and is currently open.") ;;
  update (set_status Reported) ;;
  update (set_dispute
            (Some (mkDispute (Some user.(user_id)) body.(d_reason)
                     body.(d_description) (Some DisputeOpen)
                     (Some env.(now)) None None None))) ;;
  update (push_timeline
            (mkEntry "reported"
               ("Dispute raised by " ++ user.(role) ++ ": " ++ dq
                ++ orElse body.(d_reason) "" ++ dq)
               env.(now))).

Definition postDispute (env : Env) (user : User) (body : DisputeBody)
    (found : option Booking) : Outcome :=
  if negb (truthy body.(d_reason)) || negb (truthy body.(d_description)) then
    Reply 400 "Reason and description are required to report an issue."
  else withBooking found "Booking not found." (raiseDispute env user body).

(** ** PATCH /disputes/:id/resolve (admin router) *)

Record ResolveBody := mkResolveBody {
  r_resolution : option string;
  r_finalStatus : option string
}.

Definition resolveFields (env : Env) (user : User) (text : string)
    (d : Dispute) : Dispute :=
  mkDispute d.(raisedBy) d.(reason) d.(description) (Some DisputeResolved)
    d.(createdAt) (Some text) (Some user.(user_id)) (Some env.(now)).

(** The handler after [if (!booking || !booking.dispute)].  The second
    test never answers 404: [booking.dispute] is an object on every loaded
    booking, also on one for which no dispute was ever raised, and the four
    assignments then write into it. *)
Definition resolveDispute (env : Env) (user : User) (body : ResolveBody)
    : Handler unit :=
  let final := orElse body.(r_finalStatus) "" in
  let text := orElse body.(r_resolution) "" in
  booking <- load ;;
  update (set_dispute
            (Some (resolveFields env user text (disputeOf booking)))) ;;
  assignStatus final ;;
  (if (final =? "completed")%string then
     update (set_payment_status PayoutPending)
   else
     when (final =? "cancelled")%string
       (update (set_payment_status RefundPending))) ;;
  update (push_timeline
            (mkEntry "resolved"
               ("Admin resolved the dispute. Final status set to '"
                ++ final ++ "'. Resolution: " ++ dq ++ text ++ dq)
               env.(now))).

Definition patchResolve (env : Env) (user : User) (body : ResolveBody)
    (found : option Booking) : Outcome :=
  if negb (includes user.(role) ["admin"]) then Reply 403 "Access denied"
  else if negb (truthy body.(r_resolution))
          || negb (truthy body.(r_finalStatus)) then
    Reply 400 "Resolution notes and a final status are required."
  else if negb (includes (orElse body.(r_finalStatus) "")
                  ["completed"; "cancelled"]) then
    Reply 400 "Invalid final status."
  else withBooking found "Disputed booking not found."
         (resolveDispute env user body).

(** ** POST /:id/review *)

Record ReviewBody := mkReviewBody {
  rv_score : option Z;
  rv_review : option string
}.

(** [booking.rating && booking.rating.score]: a number is truthy unless it
    is zero. *)
Definition hasScore (b : Booking) : bool :=
  match b.(rating) with
  | Some r => match r.(score) with
              | Some s => negb (s =? 0)
              | None => false
              end
  | None => false
  end.

(** The validators of [rating.score] ([min: 1], [max: 5]), run on save for
    a score that is present. *)
Definition validateRating : Handler unit :=
  booking <- load ;;
  match booking.(rating) with
  | Some (mkRating (Some s) _ _) =>
      when ((s <? 1) || (5 <? s))
        (respond 500 "Booking validation failed: rating.score")
  | _ => ret tt
  end.

Definition submitReview (env : Env) (user : User) (body : ReviewBody)
    : Handler unit :=
  booking <- load ;;
  when (negb (isCustomerOf user booking))
    (respond 403 "Only the customer who made the booking can leave a review.") ;;
  when (negb (status_eqb booking.(status) Completed))
    (respond 400 "Can only review completed services.") ;;
  when (hasScore booking)
    (respond 400 "A review for this booking has already been submitted.") ;;
  update (set_rating
            (Some (mkRating body.(rv_score) body.(rv_review)
                     (Some env.(now))))) ;;
  validateRating.

Definition postReview (env : Env) (user : User) (body : ReviewBody)
    (found : option Booking) : Outcome :=
  withBooking found "Booking not found" (submitReview env user body).

(** ** PUT /:id *)

Record EditBody := mkEditBody {
  e_scheduledDate : option Z;
  e_address : option Address;
  e_notes : option string
}.

Definition overlay {A} (old new : option A) : option A :=
  match new with
  | Some v => Some v
  | None => old
  end.

(** [{ ...booking.address, ...address }]. *)
Definition mergeAddress (old : option Address) (new : Address) : Address :=
  let o := match old with
           | Some a => a
           | None => mkAddress None None None
           end in
  mkAddress (overlay o.(street) new.(street)) (overlay o.(city) new.(city))
    (overlay o.(zipCode) new.(zipCode)).

Definition given {A} (o : option A) : bool :=
  match o with
  | Some _ => true
  | None => false
  end.

(** [if (scheduledDate)] for a date sent as a number of milliseconds: zero
    is falsy, like a missing one. *)
Definition dateGiven (o : option Z) : bool :=
  match o with
  | Some d => negb (d =? 0)
  | None => false
  end.

(** The time values of a [Date] lie within 8.64e15 milliseconds of the
    epoch; [scheduledDate] is cast to a [Date], and a number outside that
    range is refused when the document is saved (500 from the [catch]). *)
Definition maxTime : Z := 8640000000000000.

Definition validTime (d : Z) : bool := Z.abs d <=? maxTime.

Definition editNote (body : EditBody) : string :=
  "Booking details updated"
  ++ (if dateGiven body.(e_scheduledDate) then " (Date/Time changed)" else "")
  ++ (if given body.(e_address) then " (Address changed)" else "")
  ++ (if truthy body.(e_notes) then " (Notes added/changed)" else "").

Definition editBooking (env : Env) (user : User) (body : EditBody)
    : Handler unit :=
  booking <- load ;;
  when (negb (isCustomerOf user booking) && negb (isAdmin user))
    (respond 403 "You are not authorized to edit this booking.") ;;
  when (negb (statusIn booking.(status) [Pending; Confirmed]))
    (respond 400 ("Cannot edit a booking with status " ++ dq
                  ++ statusName booking.(status) ++ dq ++ ".")) ;;
  match body.(e_scheduledDate) with
  | Some d =>
      when (dateGiven (Some d))
        (if validTime d then update (set_scheduledDate d)
         else respond 500 "Booking validation failed: scheduledDate")
  | None => ret tt
  end ;;
  match body.(e_address) with
  | Some a => update (fun b => set_address (Some (mergeAddress b.(address) a)) b)
  | None => ret tt
  end ;;
  when (truthy body.(e_notes))
    (update (fun b =>
               set_notes
                 (Some (mkNotes (Some (orElse body.(e_notes) ""))
                          (notesOf b).(vendorNotes))) b)) ;;
  update (push_timeline
            (mkEntry "updated" (editNote body ++ " by " ++ user.(role) ++ ".")
               env.(now))).

Definition putBooking (env : Env) (user : User) (body : EditBody)
    (found : option Booking) : Outcome :=
  withBooking found "Booking not found" (editBooking env user body).

(** ** Commands *)

(** The lifecycle commands that write to a stored booking, each with the
    sender and the request body. *)
Inductive Command :=
| ChangeStatus (user : User) (body : StatusBody)
| VendorChangeStatus (user : User) (verification : option string)
    (body : VendorStatusBody)
| FetchOtp (user : User)
| EditBooking (user : User) (body : EditBody)
| RaiseDispute (user : User) (body : DisputeBody)
| ResolveDispute (user : User) (body : ResolveBody)
| SubmitReview (user : User) (body : ReviewBody).

(** The stored booking after a command on it. *)
Definition execute (env : Env) (c : Command) (b : Booking) : Booking :=
  match c with
  | ChangeStatus u body => persisted b (patchStatus env u body (Some b))
  | VendorChangeStatus u v body =>
      persisted b (vendorPatchStatus env u v body (Some b))
  | FetchOtp u => persisted b (getOtp env u (Some b))
  | EditBooking u body => persisted b (putBooking env u body (Some b))
  | RaiseDispute u body => persisted b (postDispute env u body (Some b))
  | ResolveDispute u body => persisted b (patchResolve env u body (Some b))
  | SubmitReview u body => persisted b (postReview env u body (Some b))
  end.

(** ** The state machine of the specification

    The edges as the specification draws them: the main line
    pending, confirmed, in-progress, verification-pending, completed; the
    side branches to cancelled and rejected out of every status that is not
    terminal; reported out of in-progress, verification-pending and
    completed; and the two resolutions of reported. *)
Definition specEdge (a b : BookingStatus) : bool :=
  match a, b with
  | Pending, Confirmed
  | Confirmed, InProgress
  | InProgress, VerificationPending
  | VerificationPending, Completed => true
  | (Pending | Confirmed | InProgress | VerificationPending), Cancelled => true
  | (Pending | Confirmed | InProgress | VerificationPending), Rejected => true
  | (InProgress | VerificationPending | Completed), Reported => true
  | Reported, (Completed | Cancelled) => true
  | _, _ => false
  end.

(** Reachability along the edges, in any number of steps. *)
Inductive specReachable : BookingStatus -> BookingStatus -> Prop :=
| reach_here : forall a, specReachable a a
| reach_step : forall a b c,
    specReachable a b -> specEdge b c = true -> specReachable a c.

(** The position of a payment status on its line:
    pending, paid_to_platform, then payout_pending and paid_to_vendor, or
    refund_pending and refunded. *)
Definition specPaymentRank (p : PaymentStatus) : Z :=
  match p with
  | PayPending => 0
  | PaidToPlatform => 1
  | PayoutPending => 2
  | PaidToVendor => 3
  | RefundPending => 2
  | Refunded => 3
  end.

(** [s.includes(sub)] on strings. *)
Fixpoint prefixOf (p s : string) : bool :=
  match p, s with
  | EmptyString, _ => true
  | String a p', String b s' => Ascii.eqb a b && prefixOf p' s'
  | String _ _, EmptyString => false
  end.

Fixpoint contains (sub s : string) : bool :=
  prefixOf sub s
  || match s with
     | EmptyString => false
     | String _ s' => contains sub s'
     end.

(** * Summaries used in the statements

    Closed forms of what the routes write, the frame predicate, and the
    comparison of runs up to the expiry of the code. *)

(** The statuses that the edges of the specification lead to from
    completed. *)
Definition afterCompleted (s : BookingStatus) : bool :=
  statusIn s [Completed; Reported; Cancelled].

(** The payment sub-record with its status replaced. *)
Definition withPayStatus (s : PaymentStatus) (p : Payment) : Payment :=
  mkPayment s p.(transactionId) p.(payoutId) p.(paidAt) p.(payoutAt)
    p.(pay_notes).

(** [keeps f h]: whenever the handler [h] runs to its end, the part [f] of
    the document is what it was at the start. *)
Definition keeps {F A} (f : Booking -> F) (h : Handler A) : Prop :=
  forall doc a doc', h doc = Next a doc' -> f doc' = f doc.

(** What an accepted status change writes.  The guards of the route only
    refuse; the writes of an accepted request are, in order: the completion
    block (when a verification-pending booking is completed), the
    generation of a code (when the target is verification-pending), the
    status, the notes and the timeline entry. *)
Definition completionWrites (body : StatusBody) (b : Booking) : Booking :=
  if (body.(body_status) =? "completed")%string
     && status_eqb b.(status) VerificationPending
  then set_payment_status PayoutPending (set_completionOtp None b)
  else b.

Definition otpWrites (env : Env) (target : string) (b : Booking) : Booking :=
  if (target =? "verification-pending")%string
  then set_completionOtpExpires (Some (otpExpiry env))
         (set_completionOtp (Some (generateOtp env)) b)
  else b.

Definition notesWrites (user : User) (body : StatusBody) (b : Booking)
    : Booking :=
  if truthy body.(body_notes)
  then writeRoleNotes user.(role) (orElse body.(body_notes) "") b
  else b.

Definition statusEntry (env : Env) (user : User) (body : StatusBody)
    : TimelineEntry :=
  mkEntry body.(body_status)
    (orElse body.(body_notes)
       ("Status updated to " ++ body.(body_status) ++ " by " ++ user.(role)))
    env.(now).

Definition statusWrites (env : Env) (user : User) (body : StatusBody)
    (st : BookingStatus) (b : Booking) : Booking :=
  push_timeline (statusEntry env user body)
    (notesWrites user body
       (set_status st
          (otpWrites env body.(body_status) (completionWrites body b)))).

(** The code stored after an accepted status change on the booking router. *)
Definition otpAfterStatusChange (env : Env) (body : StatusBody) (b : Booking)
    : option string :=
  if (body.(body_status) =? "verification-pending")%string then
    Some (generateOtp env)
  else if (body.(body_status) =? "completed")%string
          && status_eqb b.(status) VerificationPending then None
  else b.(completionOtp).

(** The payment status that goes with a final status. *)
Definition derivedPayment (final : string) : PaymentStatus :=
  if (final =? "completed")%string then PayoutPending else RefundPending.

Definition resolveEntry (env : Env) (final text : string) : TimelineEntry :=
  mkEntry "resolved"
    ("Admin resolved the dispute. Final status set to '" ++ final
     ++ "'. Resolution: " ++ dq ++ text ++ dq)
    env.(now).

(** What an accepted resolution writes. *)
Definition resolveWrites (env : Env) (user : User) (final text : string)
    (st : BookingStatus) (d : Dispute) (b : Booking) : Booking :=
  push_timeline (resolveEntry env final text)
    (set_payment_status (derivedPayment final)
       (set_status st
          (set_dispute (Some (resolveFields env user text d)) b))).

(** The payment sub-record after a command: only a completion of a
    verification-pending booking and a resolution write to it. *)
Definition paymentAfter (env : Env) (c : Command) (b : Booking)
    : option Payment :=
  match c with
  | ChangeStatus u body =>
      match patchStatus env u body (Some b) with
      | Reply _ _ => payment b
      | Next _ _ =>
          if (body.(body_status) =? "completed")%string
             && status_eqb b.(status) VerificationPending
          then Some (withPayStatus PayoutPending (paymentOf b))
          else payment b
      end
  | ResolveDispute u body =>
      match patchResolve env u body (Some b) with
      | Reply _ _ => payment b
      | Next _ _ =>
          Some (withPayStatus
                  (derivedPayment (orElse body.(r_finalStatus) ""))
                  (paymentOf b))
      end
  | _ => payment b
  end.

(** Payments that have been settled outside the engine. *)
Definition settled (o : option PaymentStatus) : bool :=
  match o with
  | Some PaidToVendor | Some Refunded => true
  | _ => false
  end.

Definition rankOf (o : option PaymentStatus) : Z :=
  match o with
  | Some p => specPaymentRank p
  | None => 0
  end.

(** A booking, and an answer, with the expiry of the code blanked: two runs
    that agree after blanking differ at most in [completionOtpExpires]. *)
Definition forgetExpiry (b : Booking) : Booking :=
  set_completionOtpExpires None b.

Definition forgetExpiryIn {A} (o : Step A) : Step A :=
  match o with
  | Reply c e => Reply c e
  | Next a d => Next a (forgetExpiry d)
  end.

(** * Sample data *)

(** A booking awaiting verification, with a code that expired at 700000. *)
Definition samplePayment : Payment :=
  mkPayment PaidToPlatform None None (Some 1000) None None.

Definition sampleBooking : Booking :=
  mkBooking "c1" (Some "v1") VerificationPending 5000 (Some samplePayment)
    None None None (Some "123456") (Some 700000) None
    [mkEntry "pending" "Booking created by customer." 1000].

(** The clock of [sampleEnv] is past the expiry of the sample code. *)
Definition sampleEnv : Env := mkEnv 900000 23456.

Definition theCustomer : User := mkUser "c1" "customer".
Definition theVendor : User := mkUser "v1" "vendor".
Definition anAdmin : User := mkUser "a1" "admin".

(** A booking whose dispute has been resolved. *)
Definition resolvedDispute : Dispute :=
  mkDispute (Some "c1") (Some "poor work") (Some "the tap still leaks")
    (Some DisputeResolved) (Some 600000) (Some "work was redone")
    (Some "a1") (Some 800000).

Definition resolvedBooking : Booking :=
  mkBooking "c1" (Some "v1") Completed 5000
    (Some (mkPayment PayoutPending None None (Some 1000) None None))
    None None None None None (Some resolvedDispute)
    [mkEntry "pending" "Booking created by customer." 1000].

Definition secondResolution : ResolveBody :=
  mkResolveBody (Some "refund issued") (Some "cancelled").

(** A booking under dispute whose payment was paid out to the vendor. *)
Definition paidOutBooking : Booking :=
  mkBooking "c1" (Some "v1") Reported 5000
    (Some (mkPayment PaidToVendor (Some "tx1") (Some "po1") (Some 1000)
             (Some 500000) None))
    None None None None None
    (Some (mkDispute (Some "c1") (Some "poor work")
             (Some "the tap still leaks") (Some DisputeOpen) (Some 600000)
             None None None))
    [mkEntry "pending" "Booking created by customer." 1000].

(** A completed booking, before and after its review. *)
Definition completedBooking : Booking :=
  mkBooking "c1" (Some "v1") Completed 5000
    (Some (mkPayment PayoutPending None None (Some 1000) None None))
    None None None None (Some 700000) None
    [mkEntry "pending" "Booking created by customer." 1000].

Definition firstReview : ReviewBody := mkReviewBody (Some 5) (Some "great").

(** A review that carries a text and no score. *)
Definition textOnlyReview : ReviewBody := mkReviewBody None (Some "fine").

(** A booking awaiting verification whose customer is the account of its
    vendor: an admin has booked the vendor's own service for that account. *)
Definition ownBooking : Booking :=
  mkBooking "v1" (Some "v1") VerificationPending 5000 (Some samplePayment)
    None None None (Some "123456") (Some 700000) None
    [mkEntry "pending" "Booking created by admin." 1000].

Definition ratedBooking : Booking :=
  set_rating (Some (mkRating (Some 5) (Some "great") (Some 900000)))
    completedBooking.

(** A booking as the creation route stores it, and the first steps of its
    vendor. *)
Definition createdBooking : Booking :=
  mkBooking "c1" (Some "v1") Pending 5000 (Some samplePayment)
    None None None None None None
    [mkEntry "pending" "Booking created by customer." 1000].

Definition earlyEnv : Env := mkEnv 100000 23456.

Definition vendorSets (target : string) (otp : option string) : Command :=
  ChangeStatus theVendor (mkStatusBody target None otp).

Definition awaitingVerification : Booking :=
  execute earlyEnv (vendorSets "verification-pending" None)
    (execute earlyEnv (vendorSets "in-progress" None)
       (execute earlyEnv (vendorSets "confirmed" None) createdBooking)).

(** * Further summaries: the other writes of the booking routes *)

(** What an accepted dispute writes. *)
Definition disputeEntry (env : Env) (user : User) (body : DisputeBody)
    : TimelineEntry :=
  mkEntry "reported"
    ("Dispute raised by " ++ user.(role) ++ ": " ++ dq
     ++ orElse body.(d_reason) "" ++ dq)
    env.(now).

Definition openedDispute (env : Env) (user : User) (body : DisputeBody)
    : Dispute :=
  mkDispute (Some user.(user_id)) body.(d_reason) body.(d_description)
    (Some DisputeOpen) (Some env.(now)) None None None.

Definition disputeWrites (env : Env) (user : User) (body : DisputeBody)
    (b : Booking) : Booking :=
  push_timeline (disputeEntry env user body)
    (set_dispute (Some (openedDispute env user body))
       (set_status Reported b)).

(** The tests a dispute passes, in the order of the route. *)
Definition disputeAllowed (user : User) (body : DisputeBody) (b : Booking)
    : bool :=
  truthy body.(d_reason) && truthy body.(d_description)
  && (isCustomerOf user b || isVendorOf user b)
  && statusIn b.(status) reportableStatuses
  && negb (disputeIsOpen b).

(** What an accepted status change on the vendor router writes. *)
Definition vendorEntry (env : Env) (body : VendorStatusBody) : TimelineEntry :=
  mkEntry body.(vs_status)
    (orElse body.(vs_vendorNotes) ("Status updated to " ++ body.(vs_status)))
    env.(now).

Definition vendorNotesWrites (body : VendorStatusBody) (b : Booking)
    : Booking :=
  let b1 := match b.(notes) with
            | Some _ => b
            | None => set_notes (Some (mkNotes None None)) b
            end in
  if truthy body.(vs_vendorNotes)
  then writeRoleNotes "vendor" (orElse body.(vs_vendorNotes) "") b1
  else b1.

Definition vendorWrites (env : Env) (body : VendorStatusBody)
    (st : BookingStatus) (b : Booking) : Booking :=
  push_timeline (vendorEntry env body)
    (vendorNotesWrites body (set_status st b)).

(** What an accepted edit writes. *)
Definition editEntry (env : Env) (user : User) (body : EditBody)
    : TimelineEntry :=
  mkEntry "updated" (editNote body ++ " by " ++ user.(role) ++ ".") env.(now).

Definition editFields (body : EditBody) (b : Booking) : Booking :=
  let b1 := match body.(e_scheduledDate) with
            | Some d => if dateGiven (Some d) then set_scheduledDate d b else b
            | None => b
            end in
  let b2 := match body.(e_address) with
            | Some a => set_address (Some (mergeAddress b1.(address) a)) b1
            | None => b1
            end in
  if truthy body.(e_notes) then
    set_notes
      (Some (mkNotes (Some (orElse body.(e_notes) ""))
               (notesOf b2).(vendorNotes))) b2
  else b2.

Definition editWrites (env : Env) (user : User) (body : EditBody)
    (b : Booking) : Booking :=
  push_timeline (editEntry env user body) (editFields body b).

(** A date of the body that the schema takes: none, zero (which the route
    passes over) or a time value of a [Date]. *)
Definition dateStorable (body : EditBody) : bool :=
  match body.(e_scheduledDate) with
  | Some d => negb (dateGiven (Some d)) || validTime d
  | None => true
  end.

(** The tests an edit passes: the sender, the status, and a date that can
    be stored. *)
Definition editAllowed (user : User) (body : EditBody) (b : Booking) : bool :=
  (isCustomerOf user b || isAdmin user)
  && statusIn b.(status) [Pending; Confirmed]
  && dateStorable body.

(** The command of a variant, for the statements over all commands. *)
Definition isRaiseDispute (c : Command) : bool :=
  match c with
  | RaiseDispute _ _ => true
  | _ => false
  end.

Definition isResolveDispute (c : Command) : bool :=
  match c with
  | ResolveDispute _ _ => true
  | _ => false
  end.

Definition isSubmitReview (c : Command) : bool :=
  match c with
  | SubmitReview _ _ => true
  | _ => false
  end.

Definition isFetchOtp (c : Command) : bool :=
  match c with
  | FetchOtp _ => true
  | _ => false
  end.

(** A dispute request, and the sample booking that was completed after it
    was reported by its customer. *)
Definition aDispute : DisputeBody :=
  mkDisputeBody (Some "poor work") (Some "the tap still leaks").

Definition reportedBooking : Booking :=
  disputeWrites sampleEnv theCustomer aDispute completedBooking.

(** * Further routes *)

(** The answer of a route that stores no booking: an error, or a body. *)
Inductive Answer (A : Type) :=
| Refused (code : Z) (error : string)
| Sent (a : A).
Arguments Refused {A} code error.
Arguments Sent {A} a.

(** ** GET /:id and GET / (booking router): what a reader is shown *)

(** A booking as the read routes populate it: the stored booking, the
    reference to its vendor document, its [report] sub-record, and the
    phone numbers of the customer and of the account of the vendor. *)
Record BookingObject := mkObject {
  obj_booking : Booking;
  vendorRef : ObjectId;
  report : option Dispute;
  customerPhone : option string;
  vendorPhone : option string
}.

(** [['confirmed', 'in-progress', 'completed'].includes(status)]. *)
Definition canViewContactInfo (s : BookingStatus) : bool :=
  statusIn s [Confirmed; InProgress; Completed].

(** [delete bookingObject.customer.phone]. *)
Definition withoutCustomerPhone (o : BookingObject) : BookingObject :=
  mkObject o.(obj_booking) o.(vendorRef) o.(report) None o.(vendorPhone).

(** [delete bookingObject.vendor.user.phone]. *)
Definition withoutVendorPhone (o : BookingObject) : BookingObject :=
  mkObject o.(obj_booking) o.(vendorRef) o.(report) o.(customerPhone) None.

Definition getBooking (user : User) (found : option BookingObject)
    : Answer BookingObject :=
  match found with
  | None => Refused 404 "Booking not found."
  | Some o =>
      let booking := o.(obj_booking) in
      let isCustomer := isCustomerOf user booking in
      let isVendor := isVendorOf user booking in
      if negb isCustomer && negb isVendor && negb (isAdmin user) then
        Refused 403 "Access denied. You are not part of this booking."
      else
        let canView := canViewContactInfo booking.(status) in
        let o1 := if isVendor && negb canView
                  then withoutCustomerPhone o else o in
        let o2 := if isCustomer && negb canView
                  then withoutVendorPhone o1 else o1 in
        Sent o2
  end.

(** The filter of a view of the list, as the [switch] builds it; [view] is
    the query parameter, absent, ['all'] or unknown for no filter. *)
Definition reportIsListed (o : BookingObject) : bool :=
  match o.(report) with
  | Some r =>
      match r.(dispute_status), r.(reason) with
      | Some DisputeOpen, Some _ => true
      | _, _ => false
      end
  | None => false
  end.

Definition matchesView (env : Env) (view : option string) (o : BookingObject)
    : bool :=
  let b := o.(obj_booking) in
  if truthy view && negb (orElse view "" =? "all")%string then
    let v := orElse view "" in
    if (v =? "upcoming")%string then
      (env.(now) <=? b.(scheduledDate))
      && negb (statusIn b.(status) [Completed; Cancelled; Rejected])
    else if (v =? "pending")%string then status_eqb b.(status) Pending
    else if (v =? "confirmed")%string then status_eqb b.(status) Confirmed
    else if (v =? "in-progress")%string then
      statusIn b.(status) [InProgress; VerificationPending]
    else if (v =? "completed")%string then status_eqb b.(status) Completed
    else if (v =? "cancelled")%string then
      statusIn b.(status) [Cancelled; Rejected]
    else if (v =? "reported")%string then reportIsListed o
    else true
  else true.

(** The part of the query that depends on the role; [myVendor] is the
    vendor document of the sender, [Vendor.findOne({ user })]. *)
Definition matchesRole (user : User) (myVendor : option ObjectId)
    (o : BookingObject) : bool :=
  if (user.(role) =? "customer")%string then isCustomerOf user o.(obj_booking)
  else if (user.(role) =? "vendor")%string then idEquals myVendor o.(vendorRef)
  else (user.(role) =? "admin")%string.

(** The list view strips both phone numbers, for every reader. *)
Definition listItem (o : BookingObject) : BookingObject :=
  if canViewContactInfo o.(obj_booking).(status) then o
  else withoutVendorPhone (withoutCustomerPhone o).

(** [GET /]: [stored] is the collection in the order of the sort. *)
Definition listBookings (env : Env) (user : User) (myVendor : option ObjectId)
    (view : option string) (stored : list BookingObject)
    : list BookingObject :=
  map listItem
    (filter (fun o => matchesRole user myVendor o && matchesView env view o)
       stored).

(** The tabs of the list that select by status. *)
Definition statusTabs : list string :=
  ["pending"; "confirmed"; "in-progress"; "completed"; "cancelled"].

(** ** POST / (booking router): creating a booking *)

(** The fields of the request body that the schema knows; the body is
    spread into the new document, so each of them is taken as sent.
    [cb_vendor] and [cb_service] are the references, [cb_status] the status
    as a string. *)
Record CreateBody := mkCreateBody {
  cb_customer : option ObjectId;
  cb_vendor : option ObjectId;
  cb_service : option ObjectId;
  cb_status : option string;
  cb_scheduledDate : option Z;
  cb_address : option Address;
  cb_notes : option Notes;
  cb_rating : option Rating;
  cb_completionOtp : option string;
  cb_completionOtpExpires : option Z;
  cb_dispute : option Dispute;
  cb_timeline : list TimelineEntry
}.

(** The customer the booking is made for, by the role of the sender. *)
Definition bookingCustomer (user : User) (body : CreateBody)
    : Answer ObjectId :=
  if (user.(role) =? "customer")%string then Sent user.(user_id)
  else if (user.(role) =? "admin")%string then
    if truthy body.(cb_customer) then Sent (orElse body.(cb_customer) "")
    else Refused 400 "Admin must specify a customer for the booking."
  else Refused 403 "Only customers or admins can book services.".

(** The score of a rating passes the validators [min: 1], [max: 5]. *)
Definition ratingValid (r : option Rating) : bool :=
  match r with
  | Some (mkRating (Some s) _ _) => (1 <=? s) && (s <=? 5)
  | _ => true
  end.

(** What the schema asks of the body when the new document is saved: the
    vendor, the service and the date are required, the date must be a time
    value of a [Date], the status one of the enum, and a score within 1
    and 5. *)
Definition bodyStorable (body : CreateBody) : bool :=
  given body.(cb_vendor) && given body.(cb_service)
  && match body.(cb_scheduledDate) with
     | Some d => validTime d
     | None => false
     end
  && match body.(cb_status) with
     | Some s => given (statusOfString s)
     | None => true
     end
  && ratingValid body.(cb_rating).

(** [POST /].  [vendorAccount] resolves a vendor document to its account,
    as the population of the answer does.  The schema requires the vendor,
    the service and the date, and the status must be one of the enum: the
    save fails otherwise and the route answers 500. *)
Definition createBooking (env : Env) (user : User)
    (vendorAccount : ObjectId -> option ObjectId) (body : CreateBody)
    : Outcome :=
  match bookingCustomer user body with
  | Refused c e => Reply c e
  | Sent customerId =>
      match body.(cb_vendor), body.(cb_service), body.(cb_scheduledDate),
            (match body.(cb_status) with
             | Some s => statusOfString s
             | None => Some Pending
             end) with
      | Some v, Some _, Some d, Some st =>
          if validTime d && ratingValid body.(cb_rating) then
            Saved
              (push_timeline
                 (mkEntry "pending"
                    ("Booking created by " ++ user.(role) ++ ".")
                    env.(now))
                 (mkBooking customerId (vendorAccount v) st d
                    (Some (mkPayment PaidToPlatform None None
                             (Some env.(now)) None None))
                    body.(cb_address) body.(cb_notes) body.(cb_rating)
                    body.(cb_completionOtp) body.(cb_completionOtpExpires)
                    body.(cb_dispute) body.(cb_timeline)))
          else Reply 500 "Booking validation failed"
      | _, _, _, _ => Reply 500 "Booking validation failed"
      end
  end.

(** ** POST / (message router): the recipient of a message *)

(** The recipient the route works out before it stores the message;
    [recipientId] is the field of the body that an admin must send.  The
    route reads [booking.vendor.user._id] without a guard where it needs the
    vendor, and answers 500 from its [catch] when the vendor is missing. *)
Definition messageRecipient (user : User) (recipientId : option ObjectId)
    (found : option Booking) : Answer ObjectId :=
  match found with
  | None => Refused 404 "Booking not found."
  | Some booking =>
      if (user.(role) =? "admin")%string then
        if negb (truthy recipientId) then
          Refused 400 "Admin must specify a recipientId."
        else
          let rid := orElse recipientId "" in
          if (booking.(customer) =? rid)%string then Sent rid
          else match booking.(vendorUser) with
               | None => Refused 500 "Failed to send message."
               | Some v =>
                   if (v =? rid)%string then Sent rid
                   else Refused 403 "Admin can only message participants of the booking."
               end
      else if isCustomerOf user booking then
        match booking.(vendorUser) with
        | Some v => Sent v
        | None => Refused 500 "Failed to send message."
        end
      else if isVendorOf user booking then Sent booking.(customer)
      else
        Refused 403 "You are not authorized to send messages for this booking."
  end.

(** ** Accounts (userController.js, middleware/auth.js) *)

(** The fields of a user document that the modelled code reads or writes. *)
Record Account := mkAccount {
  acc_id : ObjectId;
  acc_role : string;
  acc_isActive : bool;
  acc_isVerified : bool
}.

(** [User.findById(id)] on the collection. *)
Definition findById (id : ObjectId) (store : list Account) : option Account :=
  find (fun u => (acc_id u =? id)%string) store.

(** The document found by its id, saved with new contents. *)
Fixpoint replaceById (u : Account) (store : list Account) : list Account :=
  match store with
  | [] => []
  | x :: rest =>
      if (acc_id x =? acc_id u)%string then u :: rest
      else x :: replaceById u rest
  end.

(** [User.findByIdAndDelete(id)]. *)
Fixpoint deleteById (id : ObjectId) (store : list Account) : list Account :=
  match store with
  | [] => []
  | x :: rest =>
      if (acc_id x =? id)%string then rest else x :: deleteById id rest
  end.

(** The body of [PUT /users/:id]: [uu_isActive] is the field when it is a
    boolean ([typeof isActive === 'boolean']). *)
Record UserUpdate := mkUserUpdate {
  uu_role : option string;
  uu_isActive : option bool
}.

Definition allowedRoles : list string := ["customer"; "vendor"; "admin"].

(** [req.user && user._id.toString() === req.user._id.toString()]. *)
Definition isSelf (actor : option User) (u : Account) : bool :=
  match actor with
  | Some a => (acc_id u =? user_id a)%string
  | None => false
  end.

Definition applyUpdate (body : UserUpdate) (u : Account) : Account :=
  let r := if truthy body.(uu_role) then orElse body.(uu_role) ""
           else u.(acc_role) in
  let a := match body.(uu_isActive) with
           | Some v => v
           | None => u.(acc_isActive)
           end in
  mkAccount u.(acc_id) r a u.(acc_isVerified).

(** [updateUser]: the answer and the collection after it.  [isValid] is
    [mongoose.Types.ObjectId.isValid]. *)
Definition updateUser (isValid : string -> bool) (actor : option User)
    (id : string) (body : UserUpdate) (store : list Account)
    : Answer Account * list Account :=
  if negb (isValid id) then (Refused 400 "Invalid User ID format.", store)
  else match findById id store with
  | None => (Refused 404 "User not found.", store)
  | Some u =>
      if isSelf actor u then
        (Refused 403 "Cannot modify your own account status or role via this endpoint.",
         store)
      else if truthy body.(uu_role)
              && negb (includes (orElse body.(uu_role) "") allowedRoles) then
        (Refused 400 "Invalid role provided.", store)
      else (Sent (applyUpdate body u), replaceById (applyUpdate body u) store)
  end.

(** [deleteUser]. *)
Definition deleteUser (isValid : string -> bool) (actor : option User)
    (id : string) (store : list Account) : Answer string * list Account :=
  if negb (isValid id) then (Refused 400 "Invalid User ID format.", store)
  else match findById id store with
  | None => (Refused 404 "User not found.", store)
  | Some u =>
      if isSelf actor u then
        (Refused 403 "You cannot delete your own admin account.", store)
      else (Sent "User deleted successfully.", deleteById id store)
  end.

(** A request to one of the two endpoints, and the collection after it. *)
Inductive AccountRequest :=
| UpdateUser (id : string) (body : UserUpdate)
| DeleteUser (id : string).

Definition accountStep (isValid : string -> bool) (actor : User)
    (store : list Account) (r : AccountRequest) : list Account :=
  match r with
  | UpdateUser id body => snd (updateUser isValid (Some actor) id body store)
  | DeleteUser id => snd (deleteUser isValid (Some actor) id store)
  end.

(** [authHeader && authHeader.split(' ')[1]]: the text between the first
    space of the header and the next one. *)
Fixpoint afterSpace (s : string) : option string :=
  match s with
  | EmptyString => None
  | String c rest => if Ascii.eqb c " " then Some rest else afterSpace rest
  end.

Fixpoint untilSpace (s : string) : string :=
  match s with
  | EmptyString => EmptyString
  | String c rest =>
      if Ascii.eqb c " " then EmptyString else String c (untilSpace rest)
  end.

Definition bearerToken (authHeader : option string) : option string :=
  match authHeader with
  | Some h => option_map untilSpace (afterSpace h)
  | None => None
  end.

(** [authenticateToken].  [secret] is [process.env.JWT_SECRET] and
    [verify token secret] the user id of the payload when [jwt.verify]
    accepts the token; a missing secret and a rejected token both end in the
    [catch] of the middleware. *)
Definition authenticateToken (secret : option string)
    (verify : string -> string -> option ObjectId) (store : list Account)
    (authHeader : option string) : Answer Account :=
  if negb (truthy (bearerToken authHeader)) then
    Refused 401 "Access token required"
  else if negb (truthy secret) then Refused 403 "Invalid token"
  else match verify (orElse (bearerToken authHeader) "") (orElse secret "") with
  | None => Refused 403 "Invalid token"
  | Some userId =>
      match findById userId store with
      | None =>
          Refused 401 "User for this token not found. Please log in again."
      | Some u =>
          if negb u.(acc_isActive) then
            Refused 401 "This user account is inactive."
          else Sent u
      end
  end.

(** ** PATCH /vendors/:id/verify (admin router) *)

(** The fields of a vendor document that the verification writes. *)
Record VendorDoc := mkVendorDoc {
  vd_user : ObjectId;
  verificationStatus : string;
  verifiedBy : option ObjectId;
  verificationDate : option Z
}.

Definition verificationStatuses : list string :=
  ["verified"; "rejected"; "pending"].

Definition verifiedVendor (env : Env) (admin : User) (vstatus : string)
    (v : VendorDoc) : VendorDoc :=
  if (vstatus =? "verified")%string then
    mkVendorDoc v.(vd_user) vstatus (Some admin.(user_id)) (Some env.(now))
  else mkVendorDoc v.(vd_user) vstatus None None.

(** [{ isVerified, isActive }] for the account of the vendor. *)
Definition syncAccount (vstatus : string) (u : Account) : Account :=
  mkAccount u.(acc_id) u.(acc_role)
    (negb (vstatus =? "rejected")%string) (vstatus =? "verified")%string.

(** The code of the answer, the vendor document and the accounts after the
    request of the sender [admin].  [authorizeRole(['admin'])] refuses every
    other role with 403 before anything is read.  When the account of the
    vendor is missing the vendor is saved all the same and the answer is
    500.  The default services that the
    route creates for a newly verified vendor after both writes are left
    out: they touch neither the vendor's verification nor the account. *)
Definition verifyVendor (env : Env) (admin : User) (vstatus : string)
    (found : option VendorDoc) (store : list Account)
    : Z * option VendorDoc * list Account :=
  if negb (includes admin.(role) ["admin"]) then (403, found, store)
  else if negb (includes vstatus verificationStatuses) then
    (400, found, store)
  else match found with
  | None => (404, None, store)
  | Some v =>
      match findById v.(vd_user) store with
      | None => (500, Some (verifiedVendor env admin vstatus v), store)
      | Some u =>
          (200, Some (verifiedVendor env admin vstatus v),
           replaceById (syncAccount vstatus u) store)
      end
  end.

(** ** GET /users (userController.js): pages *)

(** [parseInt(x) || d]: [n] is the parsed number, [None] for NaN. *)
Definition orDefault (n : option Z) (d : Z) : Z :=
  match n with
  | Some 0 | None => d
  | Some k => k
  end.

(** [Math.ceil(a / b)] for a count [a] and a page size [b] of at least 1. *)
Definition ceilDiv (a b : Z) : Z := (a + b - 1) / b.

Record UsersPage := mkUsersPage {
  up_users : list Account;
  up_currentPage : Z;
  up_totalPages : Z;
  up_totalUsers : Z
}.

(** [getUsers] on the accounts that match the search, in the order of the
    sort, for a page and a page size of at least 1; what the driver does
    with a negative skip or limit is left out. *)
Definition getUsers (page limit : option Z) (matching : list Account)
    : option UsersPage :=
  let p := orDefault page 1 in
  let l := orDefault limit 10 in
  if (1 <=? p) && (1 <=? l) then
    Some (mkUsersPage
            (firstn (Z.to_nat l) (skipn (Z.to_nat ((p - 1) * l)) matching))
            p (ceilDiv (Z.of_nat (List.length matching)) l)
            (Z.of_nat (List.length matching)))
  else None.

Definition usersOfPage (limit : option Z) (matching : list Account) (p : nat)
    : list Account :=
  match getUsers (Some (Z.of_nat p)) limit matching with
  | Some pg => up_users pg
  | None => []
  end.

(** Sample accounts: an admin, a customer and a vendor. *)
Definition sampleAccounts : list Account :=
  [mkAccount "a1" "admin" true true; mkAccount "c1" "customer" true false;
   mkAccount "v1" "vendor" true false].

(** Every string is taken for a well-formed id in the samples. *)
Definition anyId (_ : string) : bool := true.

(** A vendor document of the sample vendor, and a token check that knows
    the token [tok-v1] of that account. *)
Definition sampleVendorDoc : VendorDoc := mkVendorDoc "v1" "pending" None None.

Definition sampleVerify (token secret : string) : option ObjectId :=
  if (token =? "tok-v1")%string && (secret =? "s3cret")%string
  then Some "v1" else None.

(** * Properties *)

(** ** Basic facts about the JavaScript values *)

Lemma strictEq_true (a b : option string) : strictEq a b = true <-> a = b.
Proof.
  destruct a as [x|], b as [y|]; simpl; split; intro H;
    try discriminate; try reflexivity.
  - apply String.eqb_eq in H. now subst.
  - injection H as ->. apply String.eqb_refl.
Qed.

Lemma strictEq_false (a b : option string) : strictEq a b = false <-> a <> b.
Proof.
  split.
  - intros H E. apply strictEq_true in E. congruence.
  - intro N. destruct (strictEq a b) eqn:E; [|reflexivity].
    apply strictEq_true in E. contradiction.
Qed.

Lemma status_eqb_eq (a b : BookingStatus) : status_eqb a b = true <-> a = b.
Proof. destruct a, b; split; intro H; try reflexivity; discriminate. Qed.

Lemma statusOfString_name (s : BookingStatus) :
  statusOfString (statusName s) = Some s.
Proof. destruct s; reflexivity. Qed.

Lemma includes_cons (s x : string) (l : list string) :
  includes s (x :: l) = true -> s = x \/ includes s l = true.
Proof.
  unfold includes. simpl. intro H. apply orb_true_iff in H.
  destruct H as [H|H]; [left; now apply String.eqb_eq|now right].
Qed.

Lemma includes_validStatuses (s : string) :
  includes s validStatuses = true ->
  s = "pending" \/ s = "confirmed" \/ s = "in-progress" \/ s = "completed"
  \/ s = "cancelled" \/ s = "verification-pending" \/ s = "rejected".
Proof.
  unfold validStatuses. intro H.
  repeat (apply includes_cons in H; destruct H as [H|H]; [tauto|]).
  discriminate.
Qed.

Lemma includes_vendorRouteStatuses (s : string) :
  includes s vendorRouteStatuses = true ->
  s = "confirmed" \/ s = "in-progress" \/ s = "verification-pending"
  \/ s = "cancelled".
Proof.
  unfold vendorRouteStatuses. intro H.
  repeat (apply includes_cons in H; destruct H as [H|H]; [tauto|]).
  discriminate.
Qed.

(** A printed number is never the empty string. *)
Lemma string_of_uint_nonempty (d : Decimal.uint) :
  NilZero.string_of_uint d <> "".
Proof. destruct d; discriminate. Qed.

Lemma toString_nonempty (n : Z) : toString n <> "".
Proof.
  unfold toString. destruct (Z.to_int n) as [d|d]; simpl.
  - apply string_of_uint_nonempty.
  - discriminate.
Qed.

Lemma generateOtp_truthy (env : Env) : truthy (Some (generateOtp env)) = true.
Proof.
  simpl. destruct (generateOtp env =? "")%string eqn:E; [|reflexivity].
  apply String.eqb_eq in E. now apply toString_nonempty in E.
Qed.

(** ** Reachability in the state machine of the specification *)

Lemma afterCompleted_closed (a s : BookingStatus) :
  specReachable a s -> afterCompleted a = true -> afterCompleted s = true.
Proof.
  induction 1 as [a | a b c Hab IH Hbc]; intro Ha; [exact Ha |].
  specialize (IH Ha). destruct b, c; try discriminate; reflexivity.
Qed.

Lemma reachable_from_completed (s : BookingStatus) :
  specReachable Completed s -> afterCompleted s = true.
Proof. intro H. now apply (afterCompleted_closed H). Qed.

(** ** Fields left alone by the updates *)

Lemma writeRoleNotes_is_set_notes (r n : string) (b : Booking) :
  exists x, writeRoleNotes r n b = set_notes x b.
Proof.
  unfold writeRoleNotes.
  destruct (r =? "customer")%string; [eauto |].
  destruct (r =? "vendor")%string; eauto.
Qed.

Lemma writeRoleNotes_status r n b :
  status (writeRoleNotes r n b) = status b.
Proof. destruct (writeRoleNotes_is_set_notes r n b) as [x ->]. reflexivity. Qed.

Lemma writeRoleNotes_payment r n b :
  payment (writeRoleNotes r n b) = payment b.
Proof. destruct (writeRoleNotes_is_set_notes r n b) as [x ->]. reflexivity. Qed.

Lemma writeRoleNotes_completionOtp r n b :
  completionOtp (writeRoleNotes r n b) = completionOtp b.
Proof. destruct (writeRoleNotes_is_set_notes r n b) as [x ->]. reflexivity. Qed.

Lemma writeRoleNotes_completionOtpExpires r n b :
  completionOtpExpires (writeRoleNotes r n b) = completionOtpExpires b.
Proof. destruct (writeRoleNotes_is_set_notes r n b) as [x ->]. reflexivity. Qed.

Lemma writeRoleNotes_timeline r n b :
  timeline (writeRoleNotes r n b) = timeline b.
Proof. destruct (writeRoleNotes_is_set_notes r n b) as [x ->]. reflexivity. Qed.

Lemma writeRoleNotes_rating r n b :
  rating (writeRoleNotes r n b) = rating b.
Proof. destruct (writeRoleNotes_is_set_notes r n b) as [x ->]. reflexivity. Qed.

Lemma writeRoleNotes_dispute r n b :
  dispute (writeRoleNotes r n b) = dispute b.
Proof. destruct (writeRoleNotes_is_set_notes r n b) as [x ->]. reflexivity. Qed.

Lemma set_payment_status_status s b :
  status (set_payment_status s b) = status b.
Proof. reflexivity. Qed.

Lemma set_payment_status_completionOtp s b :
  completionOtp (set_payment_status s b) = completionOtp b.
Proof. reflexivity. Qed.

Lemma set_payment_status_completionOtpExpires s b :
  completionOtpExpires (set_payment_status s b) = completionOtpExpires b.
Proof. reflexivity. Qed.

Lemma set_payment_status_timeline s b :
  timeline (set_payment_status s b) = timeline b.
Proof. reflexivity. Qed.

Lemma set_payment_status_rating s b :
  rating (set_payment_status s b) = rating b.
Proof. reflexivity. Qed.

Lemma set_payment_status_dispute s b :
  dispute (set_payment_status s b) = dispute b.
Proof. reflexivity. Qed.

Lemma set_payment_status_payment s b :
  payment (set_payment_status s b) = Some (withPayStatus s (paymentOf b)).
Proof. reflexivity. Qed.

Create Rewrite HintDb fields.

#[local] Hint Rewrite
  writeRoleNotes_status writeRoleNotes_payment writeRoleNotes_completionOtp
  writeRoleNotes_completionOtpExpires writeRoleNotes_timeline
  writeRoleNotes_rating writeRoleNotes_dispute
  set_payment_status_status set_payment_status_completionOtp
  set_payment_status_completionOtpExpires set_payment_status_timeline
  set_payment_status_rating set_payment_status_dispute
  set_payment_status_payment : fields.

(** ** A frame rule for handlers *)
Section Frame.
Context {F : Type} (f : Booking -> F).

Lemma keeps_ret {A} (a : A) : keeps f (ret a).
Proof. intros doc x doc' H. inversion H. reflexivity. Qed.

Lemma keeps_respond {A} c e : keeps f (@respond A c e).
Proof. intros doc x doc' H. discriminate. Qed.

Lemma keeps_load : keeps f load.
Proof. intros doc x doc' H. inversion H. reflexivity. Qed.

Lemma keeps_update (g : Booking -> Booking) :
  (forall d, f (g d) = f d) -> keeps f (update g).
Proof. intros Hg doc x doc' H. inversion H. apply Hg. Qed.

Lemma keeps_bind {A B} (h : Handler A) (k : A -> Handler B) :
  keeps f h -> (forall a, keeps f (k a)) -> keeps f (bind h k).
Proof.
  intros Hh Hk doc b doc' H. unfold bind in H.
  destruct (h doc) as [c e | a mid] eqn:E; [discriminate |].
  rewrite (Hk a mid b doc' H). exact (Hh doc a mid E).
Qed.

Lemma keeps_when (c : bool) (h : Handler unit) :
  (c = true -> keeps f h) -> keeps f (when c h).
Proof.
  intro Hh. destruct c; simpl; [now apply Hh | apply keeps_ret].
Qed.

Lemma keeps_assignStatus (s : string) :
  (forall st d, f (set_status st d) = f d) -> keeps f (assignStatus s).
Proof.
  intro Hs. unfold assignStatus. destruct (statusOfString s).
  - apply keeps_update. apply Hs.
  - apply keeps_respond.
Qed.

(** A route keeps [f] of the stored record whenever its handler does. *)
Lemma keeps_persisted {A} (h : Handler A) (b : Booking) :
  keeps f h -> f (persisted b (h b)) = f b.
Proof.
  intro Hh. destruct (h b) as [c e | a doc] eqn:E; simpl; [reflexivity |].
  exact (Hh b a doc E).
Qed.
End Frame.

(** Pushes the projections through the updates. *)
Ltac fields :=
  repeat (autorewrite with fields; simpl);
  rewrite ?writeRoleNotes_status, ?set_payment_status_status.

(** Walks down a handler along its binds and guards; an update is passed
    when it leaves the field alone. *)
Ltac frame :=
  repeat first
    [ apply keeps_ret
    | apply keeps_respond
    | apply keeps_load
    | apply keeps_bind; [| intro]
    | apply keeps_when; intro
    | apply keeps_update; first [solve [auto] | intro; reflexivity] ].

(** ** Status changes (PATCH /:id/status and the vendor route) *)

Ltac unfold_routes :=
  cbv [patchStatus changeStatus verifyCompletion customerRules vendorRules
       vendorPatchStatus vendorChangeStatus withBooking assignStatus
       bind when respond update load ret Saved persisted
       isCustomerOf isVendorOf isAdmin].



(** Splits on the guards met along a run that is known to end. *)
Ltac guards H :=
  repeat match type of H with
    | context [if ?c then _ else _] =>
        let E := fresh "G" in
        destruct c eqn:E; cbn [negb andb orb] in H; try discriminate H
    | context [match statusOfString ?s with _ => _ end] =>
        let E := fresh "S" in
        destruct (statusOfString s) eqn:E; try discriminate H
    end.

Lemma patchStatus_saved (env : Env) (user : User) (body : StatusBody)
    (b b' : Booking) :
  patchStatus env user body (Some b) = Saved b' ->
  exists st,
    statusOfString body.(body_status) = Some st
    /\ b' = statusWrites env user body st b.
Proof.
  intro H.
  unfold statusWrites, notesWrites, otpWrites, completionWrites, statusEntry.
  revert H. unfold_routes. intro H.
  guards H.
  all: inversion H; subst b'; eexists; split; reflexivity.
Qed.

Lemma vendorPatchStatus_keeps {F} (f : Booking -> F) env user v body b :
  (forall st d, f (set_status st d) = f d) ->
  (forall n d, f (set_notes n d) = f d) ->
  (forall e d, f (push_timeline e d) = f d) ->
  f (persisted b (vendorPatchStatus env user v body (Some b))) = f b.
Proof.
  intros Hs Hn Ht. unfold vendorPatchStatus.
  destruct (negb (includes (role user) ["vendor"])); [reflexivity |].
  destruct v as [v |]; [| reflexivity].
  destruct (negb (v =? "verified")%string); [reflexivity |].
  destruct (negb (includes (vs_status body) vendorRouteStatuses));
    [reflexivity |].
  unfold withBooking. apply keeps_persisted.
  unfold vendorChangeStatus.
  apply keeps_bind; [now apply keeps_assignStatus | intros _].
  apply keeps_bind; [| intros _].
  { apply keeps_update. intro d. destruct (notes d); [reflexivity | apply Hn]. }
  apply keeps_bind; [| intros _].
  { apply keeps_when. intros _. apply keeps_update. intro d.
    destruct (writeRoleNotes_is_set_notes "vendor"
                (orElse (vs_vendorNotes body) "") d) as [x ->].
    apply Hn. }
  apply keeps_update. apply Ht.
Qed.

Lemma raiseDispute_keeps {F} (f : Booking -> F) env user body :
  (forall st d, f (set_status st d) = f d) ->
  (forall x d, f (set_dispute x d) = f d) ->
  (forall e d, f (push_timeline e d) = f d) ->
  keeps f (raiseDispute env user body).
Proof.
  intros Hs Hd Ht. unfold raiseDispute. frame.
Qed.

Lemma postDispute_keeps {F} (f : Booking -> F) env user body b :
  (forall st d, f (set_status st d) = f d) ->
  (forall x d, f (set_dispute x d) = f d) ->
  (forall e d, f (push_timeline e d) = f d) ->
  f (persisted b (postDispute env user body (Some b))) = f b.
Proof.
  intros Hs Hd Ht. unfold postDispute.
  destruct (negb (truthy (d_reason body)) || negb (truthy (d_description body)));
    [reflexivity |].
  apply keeps_persisted. now apply raiseDispute_keeps.
Qed.

Lemma postReview_keeps {F} (f : Booking -> F) env user body b :
  (forall x d, f (set_rating x d) = f d) ->
  f (persisted b (postReview env user body (Some b))) = f b.
Proof.
  intro Hr. unfold postReview, withBooking. apply keeps_persisted.
  unfold submitReview, validateRating. frame.
  destruct (rating _) as [[[s |] ? ?] |]; frame.
Qed.

Lemma putBooking_keeps {F} (f : Booking -> F) env user body b :
  (forall x d, f (set_scheduledDate x d) = f d) ->
  (forall x d, f (set_address x d) = f d) ->
  (forall x d, f (set_notes x d) = f d) ->
  (forall e d, f (push_timeline e d) = f d) ->
  f (persisted b (putBooking env user body (Some b))) = f b.
Proof.
  intros Hs Ha Hn Ht. unfold putBooking, withBooking.
  apply keeps_persisted. unfold editBooking.
  apply keeps_bind; [apply keeps_load | intro].
  apply keeps_bind; [apply keeps_when; intro; apply keeps_respond | intro].
  apply keeps_bind; [apply keeps_when; intro; apply keeps_respond | intro].
  apply keeps_bind; [| intro].
  { destruct (e_scheduledDate body) as [d |]; [| apply keeps_ret].
    apply keeps_when; intro.
    destruct (validTime d); [apply keeps_update; auto | apply keeps_respond]. }
  apply keeps_bind; [| intro].
  { destruct (e_address body); [apply keeps_update; auto | apply keeps_ret]. }
  apply keeps_bind; [| intro; apply keeps_update; auto].
  apply keeps_when; intro.
  apply keeps_update; auto.
Qed.

Lemma patchResolve_keeps {F} (f : Booking -> F) env user body b :
  (forall st d, f (set_status st d) = f d) ->
  (forall x d, f (set_dispute x d) = f d) ->
  (forall s d, f (set_payment_status s d) = f d) ->
  (forall e d, f (push_timeline e d) = f d) ->
  f (persisted b (patchResolve env user body (Some b))) = f b.
Proof.
  intros Hs Hd Hp Ht. unfold patchResolve.
  destruct (negb (includes (role user) ["admin"])); [reflexivity |].
  destruct (negb (truthy (r_resolution body))
            || negb (truthy (r_finalStatus body))); [reflexivity |].
  destruct (negb (includes (orElse (r_finalStatus body) "")
                    ["completed"; "cancelled"])); [reflexivity |].
  unfold withBooking. apply keeps_persisted. unfold resolveDispute.
  apply keeps_bind; [apply keeps_load | intro cur].
  apply keeps_bind; [apply keeps_update; auto | intro].
  apply keeps_bind; [now apply keeps_assignStatus | intro].
  apply keeps_bind; [| intro; apply keeps_update; auto].
  destruct (orElse (r_finalStatus body) "" =? "completed")%string;
    [apply keeps_update; auto |].
  apply keeps_when; intro. apply keeps_update; auto.
Qed.

(** ** The completion code *)

Lemma statusWrites_completionOtp env user body st b :
  completionOtp (statusWrites env user body st b)
  = otpAfterStatusChange env body b.
Proof.
  unfold statusWrites, notesWrites, otpWrites, completionWrites,
    otpAfterStatusChange.
  destruct (truthy (body_notes body));
    destruct (body_status body =? "verification-pending")%string;
    destruct ((body_status body =? "completed")%string
              && status_eqb (status b) VerificationPending);
    simpl; fields; reflexivity.
Qed.

Lemma fetchOtp_completionOtp env user b a b' :
  fetchOtp env user b = Next a b' ->
  status b = VerificationPending
  /\ a = completionOtp b'
  /\ completionOtp b'
     = (if otpStale env b then Some (generateOtp env) else completionOtp b)
  /\ completionOtpExpires b'
     = (if otpStale env b then Some (otpExpiry env)
        else completionOtpExpires b).
Proof.
  unfold fetchOtp. cbv [bind when respond update load ret]. intro H.
  destruct (negb (isCustomerOf user b)); [discriminate |].
  destruct (status_eqb (status b) VerificationPending) eqn:Es;
    [| discriminate].
  apply status_eqb_eq in Es.
  destruct (otpStale env b); simpl in H; inversion H; subst; auto.
Qed.

(** C2, counterexample.  A verification-pending booking holds the code
    123456.  After its customer raises a dispute the status is reported and
    the code is still stored; after an admin forces cancelled the status is
    cancelled and the code is still stored. *)
Lemma C2_code_outlives_verification_pending :
  status sampleBooking = VerificationPending
  /\ (exists b', postDispute sampleEnv theCustomer
                   (mkDisputeBody (Some "no show") (Some "nobody came"))
                   (Some sampleBooking) = Saved b'
                 /\ b'.(status) = Reported
                 /\ b'.(completionOtp) = Some "123456")
  /\ (exists b', patchStatus sampleEnv anAdmin
                   (mkStatusBody "cancelled" None None) (Some sampleBooking)
                 = Saved b'
                 /\ b'.(status) = Cancelled
                 /\ b'.(completionOtp) = Some "123456").
Proof.
  split; [reflexivity |].
  split; eexists; (split; [vm_compute; reflexivity |]);
    split; reflexivity.
Qed.

(** C2, as amended.  The stored completion code changes in three ways only:
    an accepted ChangeStatus to verification-pending on the booking router
    stores a freshly generated, non-empty code; an accepted ChangeStatus to
    completed on a verification-pending booking clears it; FetchOtp replaces
    a missing or expired code by a fresh one.  Every other command leaves
    [completionOtp] as stored: raising a dispute, resolving a dispute, every
    other status change on the booking router (an admin forcing cancelled
    included), the status change of the vendor router, editing and
    reviewing.  A refused command leaves it as stored too. *)
Theorem C2_code_written_by_status_change_and_fetch
    (env : Env) (c : Command) (b : Booking) :
  completionOtp (execute env c b)
  = match c with
    | ChangeStatus u body =>
        match patchStatus env u body (Some b) with
        | Reply _ _ => completionOtp b
        | Next _ _ => otpAfterStatusChange env body b
        end
    | FetchOtp u =>
        match getOtp env u (Some b) with
        | Reply _ _ => completionOtp b
        | Next _ _ =>
            if otpStale env b then Some (generateOtp env)
            else completionOtp b
        end
    | _ => completionOtp b
    end
  /\ truthy (Some (generateOtp env)) = true.
Proof.
  split; [| apply generateOtp_truthy].
  destruct c as [u body | u v body | u | u body | u body | u body | u body];
    cbn [execute].
  - destruct (patchStatus env u body (Some b)) as [c e | [] b'] eqn:E;
      [reflexivity |].
    apply patchStatus_saved in E. destruct E as [st [_ ->]].
    cbn [persisted]. apply statusWrites_completionOtp.
  - now apply vendorPatchStatus_keeps.
  - unfold getOtp, withBooking.
    destruct (fetchOtp env u b) as [c e | a b'] eqn:E; [reflexivity |].
    apply fetchOtp_completionOtp in E. cbn [persisted]. tauto.
  - now apply putBooking_keeps.
  - now apply postDispute_keeps.
  - apply patchResolve_keeps; intros; fields; reflexivity.
  - now apply postReview_keeps.
Qed.

(** ** Completing a verification-pending booking *)

(** The vendor's request with the stored code is accepted; the vendor must
    not be the customer of the booking as well, for whom the customer rules
    refuse everything but a cancellation. *)
Lemma vendor_completion_accepted env user body b :
  status b = VerificationPending ->
  isVendorOf user b = true ->
  isCustomerOf user b = false ->
  body_status body = "completed" ->
  truthy (body_otp body) = true ->
  body_otp body = completionOtp b ->
  patchStatus env user body (Some b)
  = Saved (statusWrites env user body Completed b).
Proof.
  intros Hs Hv Hc Ht Ho He.
  assert (Hm : strictEq (completionOtp b) (body_otp body) = true)
    by (now apply strictEq_true).
  unfold statusWrites, notesWrites, otpWrites, completionWrites, statusEntry.
  destruct b as [cust vu st sd pay addr nt rt co ce dp tl].
  destruct body as [target nts otp].
  unfold isVendorOf, isCustomerOf in *. simpl in *. subst st target.
  unfold_routes. simpl. rewrite ?Hv, ?Hc, ?Ho, ?Hm. simpl.
  rewrite ?Hv, ?Hc, ?Ho, ?Hm. simpl. fields.
  destruct (truthy nts); reflexivity.
Qed.

(** The same request from a vendor who is the customer of the booking as
    well: the code is accepted, and the customer rules then refuse the
    request, since it is not a cancellation. *)
Lemma own_booking_completion_refused env user body b :
  status b = VerificationPending ->
  isVendorOf user b = true ->
  isCustomerOf user b = true ->
  body_status body = "completed" ->
  truthy (body_otp body) = true ->
  body_otp body = completionOtp b ->
  patchStatus env user body (Some b)
  = Reply 403 "As a customer, you can only cancel a booking.".
Proof.
  intros Hs Hv Hc Ht Ho He.
  assert (Hm : strictEq (completionOtp b) (body_otp body) = true)
    by (now apply strictEq_true).
  destruct b as [cust vu st sd pay addr nt rt co ce dp tl].
  destruct body as [target nts otp].
  unfold isVendorOf, isCustomerOf in *. simpl in *. subst st target.
  unfold_routes. simpl. rewrite ?Hv, ?Hc, ?Ho, ?Hm. simpl.
  rewrite ?Hv, ?Hc, ?Ho, ?Hm. reflexivity.
Qed.

(** An admin who is neither the vendor nor the customer of the booking
    completes it without a code. *)
Lemma admin_completion_accepted env user body b :
  status b = VerificationPending ->
  isAdmin user = true ->
  isVendorOf user b = false ->
  isCustomerOf user b = false ->
  body_status body = "completed" ->
  patchStatus env user body (Some b)
  = Saved (statusWrites env user body Completed b).
Proof.
  intros Hs Ha Hv Hc Ht.
  unfold statusWrites, notesWrites, otpWrites, completionWrites, statusEntry.
  destruct b as [cust vu st sd pay addr nt rt co ce dp tl].
  destruct body as [target nts otp].
  unfold isVendorOf, isCustomerOf, isAdmin in *. simpl in *. subst st target.
  unfold_routes. simpl. rewrite ?Hv, ?Hc, ?Ha. simpl.
  rewrite ?Hv, ?Hc, ?Ha. simpl. fields.
  destruct (truthy nts); reflexivity.
Qed.

Lemma completion_fields env user body b :
  status b = VerificationPending ->
  body_status body = "completed" ->
  let b' := statusWrites env user body Completed b in
  status b' = Completed
  /\ completionOtp b' = None
  /\ completionOtpExpires b' = completionOtpExpires b
  /\ payment b' = Some (withPayStatus PayoutPending (paymentOf b))
  /\ timeline b' = (timeline b ++ [statusEntry env user body])%list.
Proof.
  intros Hs Ht.
  unfold statusWrites, notesWrites, otpWrites, completionWrites.
  rewrite Hs, Ht. cbn.
  destruct (truthy (body_notes body)); cbn; fields; auto.
Qed.

(** C3.  On a verification-pending booking, the vendor's request for
    completed is refused with 400 and the message that a code is required
    when no code is sent, and with 400 and the message that the code is
    invalid when the code sent is not the stored one; in both cases the
    stored booking is as before, still verification-pending. *)
Theorem C3_completion_needs_the_stored_code
    (env : Env) (user : User) (body : StatusBody) (b : Booking) :
  status b = VerificationPending ->
  isVendorOf user b = true ->
  body_status body = "completed" ->
  truthy (body_otp body) = false \/ body_otp body <> completionOtp b ->
  patchStatus env user body (Some b)
  = Reply 400 (if truthy (body_otp body) then "Invalid OTP provided."
               else "OTP is required to complete the booking.")
  /\ persisted b (patchStatus env user body (Some b)) = b
  /\ status (persisted b (patchStatus env user body (Some b)))
     = VerificationPending.
Proof.
  intros Hs Hv Ht Hbad.
  assert (E : patchStatus env user body (Some b)
              = Reply 400 (if truthy (body_otp body)
                           then "Invalid OTP provided."
                           else "OTP is required to complete the booking.")).
  { destruct b as [cust vu st sd pay addr nt rt co ce dp tl].
    destruct body as [target nts otp].
    unfold isVendorOf in *. simpl in *. subst st target.
    unfold_routes. simpl. rewrite Hv.
    destruct (cust =? user_id user)%string; simpl; rewrite Hv; simpl.
    all: destruct (truthy otp) eqn:Ho; simpl; [| reflexivity].
    all: destruct Hbad as [Hbad | Hbad]; [discriminate |].
    all: assert (Hm : strictEq co otp = false)
           by (apply strictEq_false; congruence).
    all: rewrite Hm; reflexivity. }
  rewrite E. simpl. auto.
Qed.

(** C3 at the sample booking: its vendor sends no code, then a code that
    differs from the stored one in its last digit. *)
Lemma C3_completion_needs_the_stored_code_witness :
  patchStatus sampleEnv theVendor (mkStatusBody "completed" None None)
    (Some sampleBooking)
  = Reply 400 "OTP is required to complete the booking."
  /\ patchStatus sampleEnv theVendor
       (mkStatusBody "completed" None (Some "123457")) (Some sampleBooking)
     = Reply 400 "Invalid OTP provided.".
Proof.
  split.
  - apply (C3_completion_needs_the_stored_code sampleEnv theVendor
             (mkStatusBody "completed" None None) sampleBooking);
      try reflexivity.
    left. reflexivity.
  - apply (C3_completion_needs_the_stored_code sampleEnv theVendor
             (mkStatusBody "completed" None (Some "123457")) sampleBooking);
      try reflexivity.
    right. simpl. discriminate.
Defined.

(** C4, counterexample.  The vendor completes the sample booking with the
    stored code; the request is accepted and [completionOtpExpires] still
    holds the old expiry. *)
Lemma C4_expiry_not_cleared :
  exists b',
    patchStatus sampleEnv theVendor
      (mkStatusBody "completed" None (Some "123456")) (Some sampleBooking)
    = Saved b'
    /\ completionOtp b' = None
    /\ completionOtpExpires b' = Some 700000
    /\ completionOtpExpires b' <> None.
Proof.
  eexists. split; [vm_compute; reflexivity |].
  repeat split. discriminate.
Qed.

(** C4, as amended.  On a verification-pending booking, the request for
    completed of the vendor (who is not the customer of the booking as
    well) with the stored code is accepted: it clears [completionOtp],
    leaves [completionOtpExpires] as stored, sets the status of the payment
    sub-record to payout_pending (whatever was stored of the payment
    before, and leaving its other fields as they were), sets the status to
    completed and appends exactly one timeline entry. *)
Theorem C4_completion_with_the_stored_code
    (env : Env) (user : User) (body : StatusBody) (b : Booking) :
  status b = VerificationPending ->
  isVendorOf user b = true ->
  isCustomerOf user b = false ->
  body_status body = "completed" ->
  truthy (body_otp body) = true ->
  body_otp body = completionOtp b ->
  exists b',
    patchStatus env user body (Some b) = Saved b'
    /\ completionOtp b' = None
    /\ completionOtpExpires b' = completionOtpExpires b
    /\ payment_status b' = Some PayoutPending
    /\ payment b' = Some (withPayStatus PayoutPending (paymentOf b))
    /\ status b' = Completed
    /\ timeline b' = (timeline b ++ [statusEntry env user body])%list.
Proof.
  intros Hs Hv Hc Ht Ho He.
  exists (statusWrites env user body Completed b).
  split; [now apply vendor_completion_accepted |].
  destruct (completion_fields env user body b Hs Ht) as (A & B & C & D & E).
  unfold payment_status. rewrite D. cbn [option_map withPayStatus pay_status].
  auto 7.
Qed.

(** C4 (amended) at the sample booking, completed by its vendor with the
    stored code. *)
Lemma C4_completion_with_the_stored_code_witness :
  exists b',
    patchStatus sampleEnv theVendor
      (mkStatusBody "completed" None (Some "123456")) (Some sampleBooking)
    = Saved b'
    /\ completionOtp b' = None
    /\ completionOtpExpires b' = completionOtpExpires sampleBooking
    /\ payment_status b' = Some PayoutPending
    /\ payment b'
       = Some (withPayStatus PayoutPending (paymentOf sampleBooking))
    /\ status b' = Completed
    /\ timeline b'
       = (timeline sampleBooking
          ++ [statusEntry sampleEnv theVendor
                (mkStatusBody "completed" None (Some "123456"))])%list.
Proof.
  apply (C4_completion_with_the_stored_code sampleEnv theVendor
           (mkStatusBody "completed" None (Some "123456")) sampleBooking);
    reflexivity.
Defined.

(** ** Forced completion by an admin *)

(** C7, counterexample.  An admin completes the sample booking without a
    code and without notes; the request is accepted and the note of the
    appended entry is the standard one, which says nothing of a bypass. *)
Lemma C7_no_bypass_note :
  exists b' e,
    patchStatus sampleEnv anAdmin (mkStatusBody "completed" None None)
      (Some sampleBooking) = Saved b'
    /\ timeline b' = (timeline sampleBooking ++ [e])%list
    /\ entry_note e = "Status updated to completed by admin"
    /\ contains "bypass" (entry_note e) = false
    /\ contains "verification" (entry_note e) = false.
Proof.
  do 2 eexists. split; [vm_compute; reflexivity |].
  split; [reflexivity |]. repeat split.
Qed.

(** C7, as amended.  On a verification-pending booking, the request for
    completed of an admin (who is neither the vendor nor the customer of the
    booking) is accepted without a code; the appended timeline entry has the
    status completed and, as its note, the notes of the request when they
    are given and otherwise the text saying that the status was updated to
    completed by the role of the sender.  No note about a bypassed
    verification is added. *)
Theorem C7_admin_completion_entry
    (env : Env) (user : User) (body : StatusBody) (b : Booking) :
  status b = VerificationPending ->
  isAdmin user = true ->
  isVendorOf user b = false ->
  isCustomerOf user b = false ->
  body_status body = "completed" ->
  exists b',
    patchStatus env user body (Some b) = Saved b'
    /\ status b' = Completed
    /\ timeline b'
       = (timeline b
          ++ [mkEntry "completed"
                (orElse (body_notes body)
                   "Status updated to completed by admin")
                (now env)])%list.
Proof.
  intros Hs Ha Hv Hc Ht.
  exists (statusWrites env user body Completed b).
  split; [now apply admin_completion_accepted |].
  destruct (completion_fields env user body b Hs Ht) as (A & B & C & D & E).
  split; [exact A |]. rewrite E. unfold statusEntry. rewrite Ht.
  unfold isAdmin in Ha. apply String.eqb_eq in Ha. rewrite Ha. reflexivity.
Qed.

(** C7 (amended) at the sample booking, completed by an admin without a
    code and without notes. *)
Lemma C7_admin_completion_entry_witness :
  exists b',
    patchStatus sampleEnv anAdmin (mkStatusBody "completed" None None)
      (Some sampleBooking) = Saved b'
    /\ status b' = Completed
    /\ timeline b'
       = (timeline sampleBooking
          ++ [mkEntry "completed" "Status updated to completed by admin"
                (now sampleEnv)])%list.
Proof.
  apply (C7_admin_completion_entry sampleEnv anAdmin
           (mkStatusBody "completed" None None) sampleBooking);
    reflexivity.
Defined.

(** ** The expiry of the code *)

(** Case analysis on every test a run meets, optional fields first so that
    the documents on both sides of an equation stay in constructor form. *)
Ltac split_tests :=
  repeat (simpl; match goal with
    | |- context [match ?o with Some _ => _ | None => _ end] =>
        is_var o; destruct o
    | |- context [match statusOfString ?s with _ => _ end] =>
        destruct (statusOfString s)
    | |- context [if ?c then _ else _] =>
        match type of c with bool => destruct c end
    end).

Ltac unfold_all :=
  cbv [patchStatus changeStatus verifyCompletion customerRules vendorRules
       vendorPatchStatus vendorChangeStatus withBooking assignStatus
       postDispute raiseDispute patchResolve resolveDispute
       postReview submitReview validateRating putBooking editBooking
       bind when respond update load ret Saved persisted
       isCustomerOf isVendorOf isAdmin forgetExpiryIn forgetExpiry
       writeRoleNotes set_payment_status hasScore disputeIsOpen
       set_status set_scheduledDate set_payment set_address set_notes
       set_rating set_completionOtp set_completionOtpExpires set_dispute
       push_timeline].

Lemma patchStatus_ignores_expiry env u body b e :
  forgetExpiryIn (patchStatus env u body (Some (set_completionOtpExpires e b)))
  = forgetExpiryIn (patchStatus env u body (Some b)).
Proof.
  destruct b as [cust vu st sd pay addr nt rt co ce dp tl].
  destruct body as [target nts otp].
  unfold_all. split_tests; reflexivity.
Qed.

Lemma vendorPatchStatus_ignores_expiry env u v body b e :
  forgetExpiryIn
    (vendorPatchStatus env u v body (Some (set_completionOtpExpires e b)))
  = forgetExpiryIn (vendorPatchStatus env u v body (Some b)).
Proof.
  destruct b as [cust vu st sd pay addr nt rt co ce dp tl].
  destruct body as [target nts].
  unfold_all. split_tests; reflexivity.
Qed.

Lemma postDispute_ignores_expiry env u body b e :
  forgetExpiryIn (postDispute env u body (Some (set_completionOtpExpires e b)))
  = forgetExpiryIn (postDispute env u body (Some b)).
Proof.
  destruct b as [cust vu st sd pay addr nt rt co ce dp tl].
  destruct body as [r d].
  unfold_all. split_tests; reflexivity.
Qed.

Lemma patchResolve_ignores_expiry env u body b e :
  forgetExpiryIn (patchResolve env u body (Some (set_completionOtpExpires e b)))
  = forgetExpiryIn (patchResolve env u body (Some b)).
Proof.
  destruct b as [cust vu st sd pay addr nt rt co ce dp tl].
  destruct body as [r d].
  unfold_all. split_tests; reflexivity.
Qed.

Lemma postReview_ignores_expiry env u body b e :
  forgetExpiryIn (postReview env u body (Some (set_completionOtpExpires e b)))
  = forgetExpiryIn (postReview env u body (Some b)).
Proof.
  destruct b as [cust vu st sd pay addr nt rt co ce dp tl].
  destruct body as [r d].
  unfold_all. split_tests; reflexivity.
Qed.

Lemma putBooking_ignores_expiry env u body b e :
  forgetExpiryIn (putBooking env u body (Some (set_completionOtpExpires e b)))
  = forgetExpiryIn (putBooking env u body (Some b)).
Proof.
  destruct b as [cust vu st sd pay addr nt rt co ce dp tl].
  destruct body as [r d n].
  unfold_all. split_tests; reflexivity.
Qed.

Lemma persisted_forgetExpiry {A} (o1 o2 : Step A) (b : Booking) e :
  forgetExpiryIn o1 = forgetExpiryIn o2 ->
  forgetExpiry (persisted (set_completionOtpExpires e b) o1)
  = forgetExpiry (persisted b o2).
Proof.
  destruct o1 as [c1 e1 | a1 d1], o2 as [c2 e2 | a2 d2];
    cbn [forgetExpiryIn persisted]; intro H; try discriminate.
  - reflexivity.
  - exact (f_equal (fun o => persisted b o) H).
Qed.

Lemma execute_ignores_expiry env c b e :
  (forall u, c <> FetchOtp u) ->
  forgetExpiry (execute env c (set_completionOtpExpires e b))
  = forgetExpiry (execute env c b).
Proof.
  intro Hc.
  destruct c as [u body | u v body | u | u body | u body | u body | u body];
    cbn [execute]; try apply persisted_forgetExpiry.
  - apply patchStatus_ignores_expiry.
  - apply vendorPatchStatus_ignores_expiry.
  - now elim (Hc u).
  - apply putBooking_ignores_expiry.
  - apply postDispute_ignores_expiry.
  - apply patchResolve_ignores_expiry.
  - apply postReview_ignores_expiry.
Qed.

(** The answer of [GET /:id/otp] to the customer of a verification-pending
    booking. *)
Lemma getOtp_answer env user b :
  status b = VerificationPending ->
  isCustomerOf user b = true ->
  getOtp env user (Some b)
  = if otpStale env b then
      Next (Some (generateOtp env))
        (set_completionOtpExpires (Some (now env + 600000))
           (set_completionOtp (Some (generateOtp env)) b))
    else Next (completionOtp b) b.
Proof.
  intros Hs Hc. unfold getOtp, withBooking, fetchOtp.
  cbv [bind when respond update load ret]. rewrite Hc, Hs. simpl.
  destruct (otpStale env b); reflexivity.
Qed.

(** C9, counterexample.  The vendor of [ownBooking] is its customer as
    well.  The booking awaits verification and the vendor sends the stored
    code with the request for completed: the code passes, and the customer
    rules of the route then refuse the request with 403, so the booking
    stays verification-pending. *)
Lemma C9_own_booking_is_not_completed :
  status ownBooking = VerificationPending
  /\ isVendorOf theVendor ownBooking = true
  /\ completionOtp ownBooking = Some "123456"
  /\ patchStatus sampleEnv theVendor
       (mkStatusBody "completed" None (Some "123456")) (Some ownBooking)
     = Reply 403 "As a customer, you can only cancel a booking."
  /\ status (execute sampleEnv
               (ChangeStatus theVendor
                  (mkStatusBody "completed" None (Some "123456")))
               ownBooking)
     = VerificationPending.
Proof. repeat split. Qed.

(** C9, as amended.  The completion check compares the code and nothing
    else.  On a verification-pending booking the request for completed of
    the booking's vendor (an account that is not the customer of the
    booking as well) with the stored code is accepted whatever
    [completionOtpExpires] holds, a date in the past included.  No command
    other than FetchOtp reads the expiry, on any booking: run on two
    bookings that differ in the expiry only, it gives stored records that
    differ in the expiry only.  FetchOtp, for the customer, answers the
    stored code while it is present and not expired, and otherwise stores
    and answers a fresh code with an expiry ten minutes (600000 ms) after
    the current time. *)
Theorem C9_completion_ignores_the_expiry
    (env : Env) (vendor cust : User) (body : StatusBody) (b : Booking) :
  status b = VerificationPending ->
  isVendorOf vendor b = true ->
  isCustomerOf vendor b = false ->
  isCustomerOf cust b = true ->
  body_status body = "completed" ->
  truthy (body_otp body) = true ->
  body_otp body = completionOtp b ->
  (forall e, exists b',
      patchStatus env vendor body (Some (set_completionOtpExpires e b))
      = Saved b'
      /\ status b' = Completed)
  /\ (forall env0 b0 e c, (forall u, c <> FetchOtp u) ->
        forgetExpiry (execute env0 c (set_completionOtpExpires e b0))
        = forgetExpiry (execute env0 c b0))
  /\ getOtp env cust (Some b)
     = (if otpStale env b then
          Next (Some (generateOtp env))
            (set_completionOtpExpires (Some (now env + 600000))
               (set_completionOtp (Some (generateOtp env)) b))
        else Next (completionOtp b) b).
Proof.
  intros Hs Hv Hc Hcu Ht Ho He. split; [| split].
  - intro e.
    exists (statusWrites env vendor body Completed
              (set_completionOtpExpires e b)).
    split.
    + apply vendor_completion_accepted; auto.
    + now apply completion_fields.
  - intros env0 b0 e c Hn. now apply execute_ignores_expiry.
  - now apply getOtp_answer.
Qed.

(** C9 at the sample booking.  Its code expired at 700000 and the clock
    reads 900000: the vendor still completes the booking with it, and the
    customer asking for the code gets a fresh one, valid until 1500000. *)
Lemma C9_completion_ignores_the_expiry_witness :
  700000 < now sampleEnv
  /\ (exists b',
        patchStatus sampleEnv theVendor
          (mkStatusBody "completed" None (Some "123456"))
          (Some (set_completionOtpExpires (Some 700000) sampleBooking))
        = Saved b'
        /\ status b' = Completed)
  /\ getOtp sampleEnv theCustomer (Some sampleBooking)
     = Next (Some "123456")
         (set_completionOtpExpires (Some 1500000)
            (set_completionOtp (Some "123456") sampleBooking)).
Proof.
  split; [reflexivity |].
  pose proof (C9_completion_ignores_the_expiry sampleEnv theVendor
                theCustomer (mkStatusBody "completed" None (Some "123456"))
                sampleBooking eq_refl eq_refl eq_refl eq_refl eq_refl
                eq_refl eq_refl) as [A [_ C]].
  split; [exact (A (Some 700000)) | exact C].
Defined.

(** ** Resolving a dispute *)

(** A resolution is accepted exactly on these conditions; neither the
    status of the dispute nor its presence is among them. *)
Lemma patchResolve_accepted env user body b final :
  user.(role) = "admin" ->
  truthy body.(r_resolution) = true ->
  body.(r_finalStatus) = Some final ->
  final = "completed" \/ final = "cancelled" ->
  exists st,
    statusOfString final = Some st
    /\ patchResolve env user body (Some b)
       = Saved (resolveWrites env user final
                  (orElse body.(r_resolution) "") st (disputeOf b) b).
Proof.
  intros Hr Ht Hf Hfin.
  unfold patchResolve, resolveWrites, derivedPayment, resolveEntry.
  rewrite Hr, Ht, Hf. unfold withBooking, resolveDispute.
  cbv [bind when respond update load ret assignStatus Saved].
  rewrite Hf.
  destruct Hfin as [-> | ->]; simpl; eexists; split; reflexivity.
Qed.

Lemma patchResolve_saved env user body b b' :
  patchResolve env user body (Some b) = Saved b' ->
  exists final st,
    user.(role) = "admin"
    /\ body.(r_finalStatus) = Some final
    /\ (final = "completed" \/ final = "cancelled")
    /\ statusOfString final = Some st
    /\ b' = resolveWrites env user final (orElse body.(r_resolution) "")
              st (disputeOf b) b.
Proof.
  intro E. pose proof E as E0. revert E0. unfold patchResolve.
  destruct (includes (role user) ["admin"]) eqn:Hr; [| discriminate].
  apply includes_cons in Hr. destruct Hr as [Hr | Hr]; [| discriminate].
  cbn [negb].
  destruct (truthy (r_resolution body)) eqn:Ht; [| discriminate].
  destruct (r_finalStatus body) as [final |] eqn:Hf; [| discriminate].
  destruct (truthy (Some final)) eqn:Hft; [| discriminate].
  cbn [negb orb].
  destruct (includes (orElse (Some final) "") ["completed"; "cancelled"])
    eqn:Hi; [| discriminate].
  cbn [negb]. unfold withBooking.
  assert (Hfin : final = "completed" \/ final = "cancelled").
  { assert (Ho : orElse (Some final) "" = final).
    { simpl in *. destruct (final =? "")%string; [discriminate | reflexivity]. }
    rewrite Ho in Hi.
    apply includes_cons in Hi. destruct Hi as [Hi | Hi]; [now left |].
    apply includes_cons in Hi. destruct Hi as [Hi | Hi]; [now right |].
    discriminate. }
  intros _.
  destruct (patchResolve_accepted env user body b Hr Ht Hf Hfin)
    as [st [Hst Hacc]].
  rewrite Hacc in E. exists final, st. repeat split; auto.
  unfold Saved in E. now inversion E.
Qed.




(** The test [!booking.dispute] of the route does not hold back a booking
    on which no dispute was ever raised: the freshly created sample booking
    is resolved all the same; it becomes cancelled, its payment
    refund_pending, and it now carries a resolved dispute without raiser
    or reason. *)
Example resolution_of_an_undisputed_booking :
  dispute createdBooking = None
  /\ exists b',
       patchResolve sampleEnv anAdmin secondResolution (Some createdBooking)
       = Saved b'
       /\ status b' = Cancelled
       /\ payment_status b' = Some RefundPending
       /\ dispute b'
          = Some (mkDispute None None None (Some DisputeResolved) None
                    (Some "refund issued") (Some "a1") (Some 900000)).
Proof.
  split; [reflexivity |].
  eexists. split; [vm_compute; reflexivity |]. repeat split.
Qed.

(** ** The payment sub-record *)

Lemma statusWrites_payment env user body st b :
  payment (statusWrites env user body st b)
  = if (body.(body_status) =? "completed")%string
       && status_eqb b.(status) VerificationPending
    then Some (withPayStatus PayoutPending (paymentOf b))
    else payment b.
Proof.
  unfold statusWrites, notesWrites, otpWrites, completionWrites.
  destruct (truthy (body_notes body));
    destruct (body_status body =? "verification-pending")%string;
    destruct ((body_status body =? "completed")%string
              && status_eqb (status b) VerificationPending);
    simpl; fields; reflexivity.
Qed.

Lemma execute_payment env c b :
  payment (execute env c b) = paymentAfter env c b.
Proof.
  destruct c as [u body | u v body | u | u body | u body | u body | u body];
    cbn [execute paymentAfter].
  - destruct (patchStatus env u body (Some b)) as [c e | [] b'] eqn:E;
      [reflexivity |].
    apply patchStatus_saved in E. destruct E as [st [_ ->]].
    cbn [persisted]. apply statusWrites_payment.
  - now apply vendorPatchStatus_keeps.
  - unfold getOtp, withBooking. apply keeps_persisted.
    unfold fetchOtp. frame.
  - now apply putBooking_keeps.
  - now apply postDispute_keeps.
  - destruct (patchResolve env u body (Some b)) as [c e | [] b'] eqn:E;
      [reflexivity |].
    apply patchResolve_saved in E.
    destruct E as (final & st & Hr & Hf & Hfin & Hst & ->).
    cbn [persisted]. unfold resolveWrites. simpl. fields. simpl.
    rewrite Hf.
    assert (Ho : orElse (Some final) "" = final)
      by (destruct Hfin as [-> | ->]; reflexivity).
    now rewrite Ho.
  - now apply postReview_keeps.
Qed.

(** C6, counterexample.  The payment of the sample booking was paid out to
    the vendor before the customer raised a dispute.  An admin resolves the
    dispute with completed: the payment status goes from paid_to_vendor
    back to payout_pending. *)
Lemma C6_resolution_moves_payment_back :
  payment_status paidOutBooking = Some PaidToVendor
  /\ exists b',
       patchResolve sampleEnv anAdmin
         (mkResolveBody (Some "work accepted") (Some "completed"))
         (Some paidOutBooking) = Saved b'
       /\ payment_status b' = Some PayoutPending
       /\ specPaymentRank PayoutPending < specPaymentRank PaidToVendor.
Proof.
  split; [reflexivity |].
  eexists. split; [vm_compute; reflexivity |].
  split; reflexivity.
Qed.

(** C6, as amended.  The payment status written by the engine depends on
    the transition alone; the previous payment status is not read.
    Completing a verification-pending booking through ChangeStatus (with
    the code or by an admin) sets payout_pending; a resolution sets
    payout_pending for completed and refund_pending for cancelled, also
    over a payment already paid out or refunded; every ChangeStatus with
    another target, the status change of the vendor router, FetchOtp,
    editing, raising a dispute, reviewing and every refused command leave
    the payment sub-record as it was.  Hence the payment status never moves
    backward unless it was already settled (paid_to_vendor or refunded).
    Nothing is said here of a ChangeStatus to completed on a booking that
    is not verification-pending. *)
Theorem C6_payment_follows_the_transition
    (env : Env) (c : Command) (b : Booking) :
  match c with
  | ChangeStatus u body =>
      match patchStatus env u body (Some b) with
      | Reply _ _ => payment (execute env c b) = payment b
      | Next _ _ =>
          if (body.(body_status) =? "completed")%string then
            status_eqb b.(status) VerificationPending = false
            \/ payment (execute env c b)
               = Some (withPayStatus PayoutPending (paymentOf b))
          else payment (execute env c b) = payment b
      end
  | ResolveDispute u body =>
      match patchResolve env u body (Some b) with
      | Reply _ _ => payment (execute env c b) = payment b
      | Next _ _ =>
          (body.(r_finalStatus) = Some "completed"
           /\ payment (execute env c b)
              = Some (withPayStatus PayoutPending (paymentOf b)))
          \/ (body.(r_finalStatus) = Some "cancelled"
              /\ payment (execute env c b)
                 = Some (withPayStatus RefundPending (paymentOf b)))
      end
  | _ => payment (execute env c b) = payment b
  end
  /\ (settled (payment_status b) = true
      \/ rankOf (payment_status b) <= rankOf (payment_status (execute env c b))).
Proof.
  split.
  - rewrite execute_payment.
    destruct c as [u body | u v body | u | u body | u body | u body | u body];
      cbn [paymentAfter]; try reflexivity.
    + destruct (patchStatus env u body (Some b)) as [c e | [] b'];
        [reflexivity |].
      destruct (body_status body =? "completed")%string; [| reflexivity].
      destruct (status_eqb (status b) VerificationPending); auto.
    + destruct (patchResolve env u body (Some b)) as [c e | [] b'] eqn:E;
        [reflexivity |].
      apply patchResolve_saved in E.
      destruct E as (final & st & Hr & Hf & Hfin & Hst & _).
      rewrite Hf. destruct Hfin as [-> | ->]; simpl; auto.
  - unfold payment_status. rewrite execute_payment.
    assert (H : paymentAfter env c b = payment b
                \/ paymentAfter env c b
                   = Some (withPayStatus PayoutPending (paymentOf b))
                \/ paymentAfter env c b
                   = Some (withPayStatus RefundPending (paymentOf b))).
    { destruct c as [u body | u v body | u | u body | u body | u body | u body];
        cbn [paymentAfter]; auto.
      - destruct (patchStatus env u body (Some b)); auto.
        destruct ((body_status body =? "completed")%string
                  && status_eqb (status b) VerificationPending); auto.
      - destruct (patchResolve env u body (Some b)); auto.
        unfold derivedPayment.
        destruct (orElse (r_finalStatus body) "" =? "completed")%string; auto. }
    destruct H as [-> | [-> | ->]]; [right; lia | |];
      unfold paymentOf;
      destruct (payment b) as [[[] ? ? ? ? ?] |]; simpl; auto; right; lia.
Qed.

(** C10.  A cancellation through ChangeStatus, on the booking router or on
    the vendor router, leaves the payment sub-record exactly as it was: a
    payment that is paid_to_platform stays so.  A command that turns the
    payment status into refund_pending is a resolution of a dispute by an
    admin with the final status cancelled. *)
Theorem C10_cancellation_keeps_the_payment
    (env : Env) (user : User) (body : StatusBody)
    (vendor : User) (verification : option string) (vbody : VendorStatusBody)
    (c : Command) (b : Booking) :
  body.(body_status) = "cancelled" ->
  vbody.(vs_status) = "cancelled" ->
  payment (execute env (ChangeStatus user body) b) = payment b
  /\ payment (execute env (VendorChangeStatus vendor verification vbody) b)
     = payment b
  /\ (payment_status (execute env c b) = Some RefundPending ->
      payment_status b = Some RefundPending
      \/ exists u rbody,
           c = ResolveDispute u rbody
           /\ u.(role) = "admin"
           /\ rbody.(r_finalStatus) = Some "cancelled").
Proof.
  intros Hb Hv. split; [| split].
  - rewrite execute_payment. cbn [paymentAfter]. rewrite Hb.
    destruct (patchStatus env user body (Some b)); reflexivity.
  - rewrite execute_payment. reflexivity.
  - unfold payment_status. rewrite execute_payment.
    destruct c as [u cb | u v cb | u | u cb | u cb | u cb | u cb];
      cbn [paymentAfter]; auto.
    + destruct (patchStatus env u cb (Some b)); auto.
      destruct ((body_status cb =? "completed")%string
                && status_eqb (status b) VerificationPending); auto.
      discriminate.
    + destruct (patchResolve env u cb (Some b)) as [k e | [] b'] eqn:E; auto.
      apply patchResolve_saved in E.
      destruct E as (final & st & Hr & Hf & Hfin & Hst & _).
      rewrite Hf. destruct Hfin as [-> | ->]; simpl.
      * discriminate.
      * intros _. right. exists u, cb. auto.
Qed.

(** C10 at the sample bookings.  The customer cancels the booking awaiting
    verification: the payment stays paid_to_platform.  An admin resolving
    the dispute of the paid-out booking with cancelled is what writes
    refund_pending. *)
Lemma C10_cancellation_keeps_the_payment_witness :
  payment (execute sampleEnv
             (ChangeStatus theCustomer (mkStatusBody "cancelled" None None))
             sampleBooking)
  = Some samplePayment
  /\ status (execute sampleEnv
               (ChangeStatus theCustomer (mkStatusBody "cancelled" None None))
               sampleBooking)
     = Cancelled
  /\ payment (execute sampleEnv
                (VendorChangeStatus theVendor (Some "verified")
                   (mkVendorStatusBody "cancelled" None))
                sampleBooking)
     = Some samplePayment
  /\ payment_status
       (execute sampleEnv (ResolveDispute anAdmin secondResolution)
          paidOutBooking)
     = Some RefundPending.
Proof.
  pose proof (C10_cancellation_keeps_the_payment sampleEnv theCustomer
                (mkStatusBody "cancelled" None None) theVendor
                (Some "verified") (mkVendorStatusBody "cancelled" None)
                (ResolveDispute anAdmin secondResolution) paidOutBooking
                eq_refl eq_refl) as [_ [_ C]].
  pose proof (C10_cancellation_keeps_the_payment sampleEnv theCustomer
                (mkStatusBody "cancelled" None None) theVendor
                (Some "verified") (mkVendorStatusBody "cancelled" None)
                (ResolveDispute anAdmin secondResolution) sampleBooking
                eq_refl eq_refl) as [A [B _]].
  split; [exact A |]. split; [reflexivity |]. split; [exact B |].
  reflexivity.
Defined.

(** ** Reviews *)

(** C8, at the failing input.  The customer of the completed sample booking
    sends a review with a text and no score: it is accepted and the
    booking now carries a rating (text and date).  The test that is to
    prevent a second review looks at the score only, so the next review of
    the same customer is accepted too and replaces the stored rating. *)
Lemma C8_review_without_score_is_repeatable :
  exists b1 b2,
    postReview sampleEnv theCustomer textOnlyReview (Some completedBooking)
    = Saved b1
    /\ rating b1 = Some (mkRating None (Some "fine") (Some 900000))
    /\ postReview sampleEnv theCustomer firstReview (Some b1) = Saved b2
    /\ rating b2 = Some (mkRating (Some 5) (Some "great") (Some 900000))
    /\ rating b2 <> rating b1.
Proof.
  do 2 eexists. split; [vm_compute; reflexivity |].
  split; [reflexivity |]. split; [vm_compute; reflexivity |].
  split; [reflexivity | discriminate].
Qed.

(** X27.  A review is accepted only from the customer of the booking, only
    on a completed booking, and only while the booking carries no score.
    On a booking that carries a score the request is refused, with 400
    when it comes from the customer, and the stored booking, its rating
    included, is unchanged.  Once a review with a score is accepted, every
    later review of that booking is refused. *)
Theorem review_with_score_is_single_use
    (env : Env) (user : User) (body : ReviewBody) (b : Booking) :
  (forall b', postReview env user body (Some b) = Saved b' ->
     isCustomerOf user b = true
     /\ status b = Completed
     /\ hasScore b = false)
  /\ (hasScore b = true ->
      exists code e,
        postReview env user body (Some b) = Reply code e
        /\ (code = 400 \/ code = 403)
        /\ (isCustomerOf user b = true -> code = 400)
        /\ persisted b (postReview env user body (Some b)) = b
        /\ rating (persisted b (postReview env user body (Some b)))
           = rating b)
  /\ (forall b' s,
        postReview env user body (Some b) = Saved b' ->
        body.(rv_score) = Some s ->
        hasScore b' = true
        /\ forall env' user' body',
             exists code e,
               postReview env' user' body' (Some b') = Reply code e).
Proof.
  assert (Hrated : forall env0 user0 body0 b0,
             hasScore b0 = true ->
             exists code e,
               postReview env0 user0 body0 (Some b0) = Reply code e
               /\ (code = 400 \/ code = 403)
               /\ (isCustomerOf user0 b0 = true -> code = 400)).
  { intros env0 user0 body0 b0 H.
    unfold postReview, withBooking, submitReview.
    cbv [bind when respond update load ret]. rewrite H.
    destruct (isCustomerOf user0 b0); simpl.
    - destruct (status_eqb (status b0) Completed); simpl;
        do 2 eexists; (split; [reflexivity |]); auto.
    - do 2 eexists. split; [reflexivity |]. split; [auto | discriminate]. }
  assert (Hsaved : forall b', postReview env user body (Some b) = Saved b' ->
             isCustomerOf user b = true
             /\ status b = Completed
             /\ hasScore b = false
             /\ rating b'
                = Some (mkRating body.(rv_score) body.(rv_review)
                          (Some env.(now)))
             /\ (forall s, body.(rv_score) = Some s -> 1 <= s <= 5)).
  { intros b'. unfold postReview, withBooking, submitReview, validateRating.
    cbv [bind when respond update load ret Saved].
    destruct (isCustomerOf user b); simpl; [| discriminate].
    destruct (status_eqb (status b) Completed) eqn:Es; simpl;
      [| discriminate].
    apply status_eqb_eq in Es.
    destruct (hasScore b); simpl; [discriminate |].
    destruct (rv_score body) as [s |]; simpl.
    - destruct (s <? 1) eqn:E1; simpl; [discriminate |].
      destruct (5 <? s) eqn:E5; simpl; [discriminate |].
      intro E. inversion E. repeat split; auto;
        injection H as <-; apply Z.ltb_ge in E1, E5; lia.
    - intro E. inversion E. repeat split; auto; discriminate. }
  split; [| split].
  - intros b' E. destruct (Hsaved b' E) as (A & B & C & _). auto.
  - intro H. destruct (Hrated env user body b H) as (code & e & E & Hc & Hcu).
    exists code, e. rewrite E. simpl. auto.
  - intros b' s E Hs. destruct (Hsaved b' E) as (_ & _ & _ & Hr & Hrange).
    assert (Hb' : hasScore b' = true).
    { unfold hasScore. rewrite Hr, Hs. simpl.
      specialize (Hrange s Hs).
      destruct (s =? 0) eqn:E0; [| reflexivity].
      apply Z.eqb_eq in E0. lia. }
    split; [exact Hb' |]. intros env' user' body'.
    destruct (Hrated env' user' body' b' Hb') as (code & e & E' & _).
    eauto.
Qed.

(** X27 at the completed sample booking: the first review is accepted and
    stores the rating, the second one is refused with the booking
    unchanged. *)
Lemma review_with_score_is_single_use_witness :
  postReview sampleEnv theCustomer firstReview (Some completedBooking)
  = Saved ratedBooking
  /\ hasScore ratedBooking = true
  /\ (exists code e,
        postReview sampleEnv theCustomer (mkReviewBody (Some 1) (Some "bad"))
          (Some ratedBooking) = Reply code e)
  /\ (exists code e,
        postReview sampleEnv theCustomer (mkReviewBody (Some 1) (Some "bad"))
          (Some ratedBooking) = Reply code e
        /\ (code = 400 \/ code = 403)
        /\ (isCustomerOf theCustomer ratedBooking = true -> code = 400)
        /\ persisted ratedBooking
             (postReview sampleEnv theCustomer
                (mkReviewBody (Some 1) (Some "bad")) (Some ratedBooking))
           = ratedBooking
        /\ rating
             (persisted ratedBooking
                (postReview sampleEnv theCustomer
                   (mkReviewBody (Some 1) (Some "bad")) (Some ratedBooking)))
           = rating ratedBooking).
Proof.
  assert (E : postReview sampleEnv theCustomer firstReview
                (Some completedBooking) = Saved ratedBooking)
    by reflexivity.
  destruct (review_with_score_is_single_use sampleEnv theCustomer firstReview
              completedBooking) as [_ [_ Once]].
  destruct (Once ratedBooking 5 E eq_refl) as [Hs Hrefused].
  split; [exact E |]. split; [exact Hs |].
  split; [apply Hrefused |].
  exact (proj1 (proj2 (review_with_score_is_single_use sampleEnv theCustomer
                         (mkReviewBody (Some 1) (Some "bad")) ratedBooking))
           eq_refl).
Defined.

(** ** A run through the lifecycle

    The first scenario of the specification, from the booking as created:
    the vendor confirms, starts, asks for verification; the customer
    fetches the code; the vendor completes with it. *)

Example scenario_completion :
  status awaitingVerification = VerificationPending
  /\ completionOtp awaitingVerification = Some "123456"
  /\ completionOtpExpires awaitingVerification = Some 700000
  /\ getOtp earlyEnv theCustomer (Some awaitingVerification)
     = Next (Some "123456") awaitingVerification
  /\ let final := execute earlyEnv (vendorSets "completed" (Some "123456"))
                    awaitingVerification in
     status final = Completed
     /\ payment_status final = Some PayoutPending
     /\ completionOtp final = None
     /\ List.length (timeline final) = 5%nat.
Proof. vm_compute. repeat split. Qed.

(** An admin completing a booking that is still in progress: the request is
    accepted and the payment status is not touched. *)
Example admin_completes_in_progress_booking :
  let b := set_status InProgress sampleBooking in
  exists b',
    patchStatus sampleEnv anAdmin (mkStatusBody "completed" None None) (Some b)
    = Saved b'
    /\ status b' = Completed
    /\ payment_status b' = Some PaidToPlatform.
Proof. eexists. split; [vm_compute; reflexivity |]. split; reflexivity. Qed.

(** * Further properties *)

(** ** What the other routes write *)

Lemma writeRoleNotes_customer r n b :
  customer (writeRoleNotes r n b) = customer b.
Proof. destruct (writeRoleNotes_is_set_notes r n b) as [x ->]. reflexivity. Qed.

Lemma writeRoleNotes_vendorUser r n b :
  vendorUser (writeRoleNotes r n b) = vendorUser b.
Proof. destruct (writeRoleNotes_is_set_notes r n b) as [x ->]. reflexivity. Qed.

Lemma statusWrites_timeline env user body st b :
  timeline (statusWrites env user body st b)
  = (timeline b ++ [statusEntry env user body])%list.
Proof.
  unfold statusWrites, notesWrites, otpWrites, completionWrites.
  destruct (truthy (body_notes body));
    destruct (body_status body =? "verification-pending")%string;
    destruct ((body_status body =? "completed")%string
              && status_eqb (status b) VerificationPending);
    simpl; fields; reflexivity.
Qed.

Lemma statusWrites_status env user body st b :
  status (statusWrites env user body st b) = st.
Proof.
  unfold statusWrites, notesWrites.
  destruct (truthy (body_notes body)); simpl; fields; reflexivity.
Qed.

(** A field that none of the writes of a status change touches. *)
Lemma statusWrites_keeps {F} (f : Booking -> F) env user body st b :
  (forall s d, f (set_status s d) = f d) ->
  (forall x d, f (set_completionOtp x d) = f d) ->
  (forall x d, f (set_completionOtpExpires x d) = f d) ->
  (forall s d, f (set_payment_status s d) = f d) ->
  (forall n d, f (set_notes n d) = f d) ->
  (forall e d, f (push_timeline e d) = f d) ->
  f (statusWrites env user body st b) = f b.
Proof.
  intros Hs Ho He Hp Hn Ht.
  unfold statusWrites, notesWrites, otpWrites, completionWrites.
  rewrite Ht.
  assert (Hw : forall r n d, f (writeRoleNotes r n d) = f d).
  { intros r n d. destruct (writeRoleNotes_is_set_notes r n d) as [x ->].
    apply Hn. }
  destruct (truthy (body_notes body)); rewrite ?Hw, Hs;
    destruct (body_status body =? "verification-pending")%string;
    rewrite ?He, ?Ho;
    destruct ((body_status body =? "completed")%string
              && status_eqb (status b) VerificationPending);
    rewrite ?Hp, ?Ho; reflexivity.
Qed.

Lemma patchStatus_keeps {F} (f : Booking -> F) env user body b :
  (forall s d, f (set_status s d) = f d) ->
  (forall x d, f (set_completionOtp x d) = f d) ->
  (forall x d, f (set_completionOtpExpires x d) = f d) ->
  (forall s d, f (set_payment_status s d) = f d) ->
  (forall n d, f (set_notes n d) = f d) ->
  (forall e d, f (push_timeline e d) = f d) ->
  f (persisted b (patchStatus env user body (Some b))) = f b.
Proof.
  intros Hs Ho He Hp Hn Ht.
  destruct (patchStatus env user body (Some b)) as [c e | [] b'] eqn:E;
    [reflexivity |].
  apply patchStatus_saved in E. destruct E as [st [_ ->]].
  cbn [persisted]. now apply statusWrites_keeps.
Qed.

Lemma getOtp_keeps {F} (f : Booking -> F) env user b :
  (forall x d, f (set_completionOtp x d) = f d) ->
  (forall x d, f (set_completionOtpExpires x d) = f d) ->
  f (persisted b (getOtp env user (Some b))) = f b.
Proof.
  intros Ho He. unfold getOtp, withBooking. apply keeps_persisted.
  unfold fetchOtp. frame.
Qed.

Lemma set_payment_status_customer s b :
  customer (set_payment_status s b) = customer b.
Proof. reflexivity. Qed.

Lemma set_payment_status_vendorUser s b :
  vendorUser (set_payment_status s b) = vendorUser b.
Proof. reflexivity. Qed.

(** The dispute route, in closed form. *)
Lemma postDispute_accepted env user body b :
  disputeAllowed user body b = true ->
  postDispute env user body (Some b) = Saved (disputeWrites env user body b).
Proof.
  unfold disputeAllowed. intro H.
  repeat (apply andb_true_iff in H; destruct H as [H ?]).
  unfold postDispute. rewrite H, H3. cbn [negb orb].
  unfold withBooking, raiseDispute, disputeWrites, disputeEntry, openedDispute.
  cbv [bind when respond update load ret Saved].
  apply orb_true_iff in H2.
  assert (Hp : negb (isCustomerOf user b) && negb (isVendorOf user b) = false)
    by (destruct H2 as [-> | ->]; [reflexivity | apply andb_false_r]).
  rewrite Hp, H1. apply negb_true_iff in H0. rewrite H0. reflexivity.
Qed.

Lemma postDispute_refused env user body b :
  disputeAllowed user body b = false ->
  exists code e,
    postDispute env user body (Some b) = Reply code e
    /\ (code = 400 \/ code = 403).
Proof.
  unfold disputeAllowed, postDispute. intro H.
  destruct (truthy (d_reason body)); cbn [negb orb andb] in *; [| eauto].
  destruct (truthy (d_description body)); cbn [negb orb andb] in *; [| eauto].
  unfold withBooking, raiseDispute.
  cbv [bind when respond update load ret].
  destruct (isCustomerOf user b), (isVendorOf user b);
    cbn [negb orb andb] in *; eauto.
  all: destruct (statusIn (status b) reportableStatuses);
    cbn [negb orb andb] in *; eauto.
  all: destruct (disputeIsOpen b); cbn [negb] in *; eauto; discriminate.
Qed.

Lemma postDispute_saved env user body b b' :
  postDispute env user body (Some b) = Saved b' ->
  disputeAllowed user body b = true /\ b' = disputeWrites env user body b.
Proof.
  intro E. destruct (disputeAllowed user body b) eqn:A.
  - rewrite (postDispute_accepted env _ _ _ A) in E.
    unfold Saved in E. inversion E. auto.
  - destruct (postDispute_refused env _ _ _ A) as (c & e & R & _).
    rewrite R in E. discriminate.
Qed.

(** The status change of the vendor router, in closed form. *)
Lemma vendorPatchStatus_accepted env user body b :
  role user = "vendor" ->
  includes (vs_status body) vendorRouteStatuses = true ->
  exists st,
    statusOfString (vs_status body) = Some st
    /\ vendorPatchStatus env user (Some "verified") body (Some b)
       = Saved (vendorWrites env body st b).
Proof.
  intros Hr Hi. unfold vendorPatchStatus. rewrite Hr, Hi. cbn.
  unfold vendorChangeStatus, vendorWrites, vendorNotesWrites, vendorEntry,
    assignStatus.
  cbv [bind when respond update load ret Saved].
  apply includes_vendorRouteStatuses in Hi.
  destruct Hi as [E | [E | [E | E]]]; rewrite E; cbn;
    eexists; (split; [reflexivity |]);
    destruct (notes b); destruct (truthy (vs_vendorNotes body)); reflexivity.
Qed.

Lemma vendorPatchStatus_saved env user v body b b' :
  vendorPatchStatus env user v body (Some b) = Saved b' ->
  role user = "vendor" /\ v = Some "verified"
  /\ includes (vs_status body) vendorRouteStatuses = true
  /\ exists st, statusOfString (vs_status body) = Some st
               /\ b' = vendorWrites env body st b.
Proof.
  intro E. pose proof E as E0. revert E0. unfold vendorPatchStatus.
  destruct (includes (role user) ["vendor"]) eqn:Hr; cbn [negb];
    [| discriminate].
  apply includes_cons in Hr. destruct Hr as [Hr | Hr]; [| discriminate].
  destruct v as [v |]; [| discriminate].
  destruct (v =? "verified")%string eqn:Hv; cbn [negb]; [| discriminate].
  apply String.eqb_eq in Hv. subst v.
  destruct (includes (vs_status body) vendorRouteStatuses) eqn:Hi;
    cbn [negb]; [| discriminate].
  intros _.
  destruct (vendorPatchStatus_accepted env user body b Hr Hi) as [st [Hs A]].
  rewrite A in E. unfold Saved in E. inversion E.
  repeat split; auto. exists st. auto.
Qed.

(** The edit route, in closed form. *)
Lemma putBooking_normal env user body b :
  putBooking env user body (Some b)
  = if editAllowed user body b then Saved (editWrites env user body b)
    else if negb (isCustomerOf user b) && negb (isAdmin user) then
      Reply 403 "You are not authorized to edit this booking."
    else if negb (statusIn (status b) [Pending; Confirmed]) then
      Reply 400 ("Cannot edit a booking with status " ++ dq
                 ++ statusName (status b) ++ dq ++ ".")
    else Reply 500 "Booking validation failed: scheduledDate".
Proof.
  unfold putBooking, withBooking, editBooking, editAllowed, editWrites,
    editFields, editEntry, editNote, dateStorable.
  cbv [bind when respond update load ret Saved].
  destruct (isCustomerOf user b), (isAdmin user); cbn [negb andb orb];
    try reflexivity.
  all: destruct (statusIn (status b) [Pending; Confirmed]);
    cbn [negb andb orb]; try reflexivity.
  all: destruct (e_scheduledDate body) as [d |];
    [destruct (dateGiven (Some d)); [destruct (validTime d) |] |];
    cbn [negb andb orb];
    destruct (e_address body), (truthy (e_notes body)); reflexivity.
Qed.

Lemma postReview_saved env user body b b' :
  postReview env user body (Some b) = Saved b' ->
  b' = set_rating (Some (mkRating body.(rv_score) body.(rv_review)
                           (Some env.(now)))) b.
Proof.
  unfold postReview, withBooking, submitReview, validateRating.
  cbv [bind when respond update load ret Saved].
  destruct (negb (isCustomerOf user b)); [discriminate |].
  destruct (negb (status_eqb (status b) Completed)); [discriminate |].
  destruct (hasScore b); [discriminate |].
  simpl. destruct (rv_score body) as [s |]; simpl.
  - destruct ((s <? 1) || (5 <? s)); simpl; [discriminate |].
    intro E. now inversion E.
  - intro E. now inversion E.
Qed.

(** ** Invariants of the stored booking under every command *)

Lemma valid_target_not_reported s st :
  includes s validStatuses = true -> statusOfString s = Some st ->
  st <> Reported.
Proof.
  intros H E. apply includes_validStatuses in H.
  destruct H as [-> | [-> | [-> | [-> | [-> | [-> | ->]]]]]];
    inversion E; discriminate.
Qed.

Lemma patchStatus_saved_valid env user body b b' :
  patchStatus env user body (Some b) = Saved b' ->
  includes (body_status body) validStatuses = true.
Proof.
  unfold patchStatus.
  destruct (includes (body_status body) validStatuses); [auto | discriminate].
Qed.

(** A command leaves status and timeline alone or appends one entry, dated
    with the clock of the request. *)
Lemma execute_timeline_cases env c b :
  (timeline (execute env c b) = timeline b
   /\ status (execute env c b) = status b)
  \/ exists e,
       timeline (execute env c b) = (timeline b ++ [e])%list
       /\ entry_timestamp e = now env.
Proof.
  destruct c as [u body | u v body | u | u body | u body | u body | u body];
    cbn [execute].
  - destruct (patchStatus env u body (Some b)) as [c e | [] b'] eqn:E;
      [left; auto |].
    apply patchStatus_saved in E. destruct E as [st [_ ->]].
    right. exists (statusEntry env u body).
    split; [apply statusWrites_timeline | reflexivity].
  - destruct (vendorPatchStatus env u v body (Some b)) as [c e | [] b'] eqn:E;
      [left; auto |].
    apply vendorPatchStatus_saved in E.
    destruct E as (_ & _ & _ & st & _ & ->).
    right. exists (vendorEntry env body). split; [| reflexivity].
    unfold vendorWrites, vendorNotesWrites. cbn [persisted].
    destruct (notes (set_status st b)); destruct (truthy (vs_vendorNotes body));
      simpl; fields; reflexivity.
  - left. split; now apply getOtp_keeps.
  - rewrite putBooking_normal.
    destruct (editAllowed u body b); [right | left].
    + exists (editEntry env u body). split; [| reflexivity].
      unfold editWrites, editFields. cbn [persisted].
      destruct (e_scheduledDate body) as [d |];
        [destruct (dateGiven (Some d)) |];
        destruct (e_address body), (truthy (e_notes body)); reflexivity.
    + destruct (negb (isCustomerOf u b) && negb (isAdmin u)); [auto |].
      destruct (negb (statusIn (status b) [Pending; Confirmed])); auto.
  - destruct (postDispute env u body (Some b)) as [c e | [] b'] eqn:E;
      [left; auto |].
    apply postDispute_saved in E. destruct E as [_ ->].
    right. exists (disputeEntry env u body). split; reflexivity.
  - destruct (patchResolve env u body (Some b)) as [c e | [] b'] eqn:E;
      [left; auto |].
    apply patchResolve_saved in E.
    destruct E as (final & st & _ & _ & _ & _ & ->).
    right. exists (resolveEntry env final (orElse (r_resolution body) "")).
    split; [| reflexivity].
    unfold resolveWrites. cbn [persisted]. simpl. fields. reflexivity.
  - left. split; now apply postReview_keeps.
Qed.

(** X1.  The timeline is append-only: every command leaves the timeline of
    the stored booking as it was or appends exactly one entry at its end,
    and a command that changes the status appends one. *)
Theorem timeline_append_only (env : Env) (c : Command) (b : Booking) :
  (exists l,
      timeline (execute env c b) = (timeline b ++ l)%list
      /\ (List.length l <= 1)%nat)
  /\ (status (execute env c b) = status b
      \/ List.length (timeline (execute env c b))
         = S (List.length (timeline b))).
Proof.
  destruct (execute_timeline_cases env c b) as [[Ht Hs] | [e [Ht _]]].
  - split; [| now left]. exists []. rewrite app_nil_r. auto.
  - split.
    + exists [e]. auto.
    + right. rewrite Ht, length_app. simpl. lia.
Qed.

Lemma execute_keeps {F} (f : Booking -> F) env c b :
  (forall s d, f (set_status s d) = f d) ->
  (forall x d, f (set_completionOtp x d) = f d) ->
  (forall x d, f (set_completionOtpExpires x d) = f d) ->
  (forall s d, f (set_payment_status s d) = f d) ->
  (forall n d, f (set_notes n d) = f d) ->
  (forall e d, f (push_timeline e d) = f d) ->
  (forall x d, f (set_dispute x d) = f d) ->
  (forall x d, f (set_rating x d) = f d \/ isSubmitReview c = false) ->
  (forall x d, f (set_scheduledDate x d) = f d) ->
  (forall x d, f (set_address x d) = f d) ->
  f (execute env c b) = f b.
Proof.
  intros Hs Ho He Hp Hn Ht Hd Hr Hsd Ha.
  destruct c as [u body | u v body | u | u body | u body | u body | u body];
    cbn [execute].
  - now apply patchStatus_keeps.
  - now apply vendorPatchStatus_keeps.
  - now apply getOtp_keeps.
  - now apply putBooking_keeps.
  - now apply postDispute_keeps.
  - now apply patchResolve_keeps.
  - apply postReview_keeps. intros x d.
    destruct (Hr x d) as [H | H]; [exact H | discriminate].
Qed.

(** X2.  The participants of a booking never change: whatever the command,
    the stored customer and the account of the vendor are those the booking
    had before. *)
Theorem participants_never_change (env : Env) (c : Command) (b : Booking) :
  customer (execute env c b) = customer b
  /\ vendorUser (execute env c b) = vendorUser b.
Proof.
  split.
  - apply execute_keeps; intros; auto using set_payment_status_customer.
  - apply execute_keeps; intros; auto using set_payment_status_vendorUser.
Qed.

(** X3.  A rating, once stored with a score, is final: no command changes
    the rating sub-record of a booking that carries a score. *)
Theorem rating_is_final (env : Env) (c : Command) (b : Booking) :
  hasScore b = true ->
  rating (execute env c b) = rating b.
Proof.
  intro H.
  destruct (isSubmitReview c) eqn:Ec.
  - destruct c; try discriminate. cbn [execute].
    unfold postReview, withBooking, submitReview.
    cbv [bind when respond update load ret]. rewrite H.
    destruct (negb (isCustomerOf user b)); [reflexivity |].
    destruct (negb (status_eqb (status b) Completed)); reflexivity.
  - apply execute_keeps; intros; auto using set_payment_status_rating.
Qed.

Lemma rating_is_final_witness :
  rating (execute sampleEnv
            (SubmitReview theCustomer (mkReviewBody (Some 1) (Some "bad")))
            ratedBooking)
  = rating ratedBooking
  /\ rating (execute sampleEnv
               (ChangeStatus anAdmin (mkStatusBody "pending" None None))
               ratedBooking)
     = rating ratedBooking.
Proof.
  split; apply rating_is_final; reflexivity.
Defined.

Lemma reported_origin env c b :
  isRaiseDispute c = false ->
  status (execute env c b) = Reported -> status b = Reported.
Proof.
  intro Hc.
  destruct c as [u body | u v body | u | u body | u body | u body | u body];
    cbn [execute]; try discriminate.
  - destruct (patchStatus env u body (Some b)) as [k m | [] b'] eqn:E;
      [auto |].
    pose proof (patchStatus_saved_valid _ _ _ _ E) as Hv.
    apply patchStatus_saved in E. destruct E as [st [Hs ->]].
    cbn [persisted]. rewrite statusWrites_status. intro H.
    now elim (valid_target_not_reported _ Hv Hs).
  - destruct (vendorPatchStatus env u v body (Some b)) as [k m | [] b'] eqn:E;
      [auto |].
    apply vendorPatchStatus_saved in E.
    destruct E as (_ & _ & Hi & st & Hs & ->). cbn [persisted].
    assert (Hst : status (vendorWrites env body st b) = st).
    { unfold vendorWrites, vendorNotesWrites.
      destruct (notes (set_status st b));
        destruct (truthy (vs_vendorNotes body)); simpl; fields; reflexivity. }
    rewrite Hst. intro H. subst st.
    apply includes_vendorRouteStatuses in Hi.
    destruct Hi as [Ei | [Ei | [Ei | Ei]]]; rewrite Ei in Hs; discriminate.
  - now rewrite (getOtp_keeps status).
  - now rewrite (putBooking_keeps status).
  - destruct (patchResolve env u body (Some b)) as [k m | [] b'] eqn:E;
      [auto |].
    apply patchResolve_saved in E.
    destruct E as (final & st & _ & _ & Hf & Hs & ->).
    cbn [persisted]. unfold resolveWrites. simpl. fields. simpl.
    intro H. subst st. destruct Hf as [-> | ->]; discriminate.
  - now rewrite (postReview_keeps status).
Qed.

(** X4.  The dispute sub-record is written by raising and resolving a
    dispute only, and the status reported is entered by raising a dispute
    only: after any other command the dispute is as before, and the status
    is reported only if it was so before. *)
Theorem reported_by_dispute_only (env : Env) (c : Command) (b : Booking) :
  (isRaiseDispute c || isResolveDispute c = true
   \/ dispute (execute env c b) = dispute b)
  /\ (isRaiseDispute c = true
      \/ status (execute env c b) <> Reported
      \/ status b = Reported).
Proof.
  split.
  - destruct c as [u body | u v body | u | u body | u body | u body | u body];
      cbn [execute isRaiseDispute isResolveDispute orb]; auto; right.
    + apply patchStatus_keeps; intros; fields; reflexivity.
    + now apply vendorPatchStatus_keeps.
    + now apply getOtp_keeps.
    + now apply putBooking_keeps.
    + now apply postReview_keeps.
  - destruct (isRaiseDispute c) eqn:Hc; [now left | right].
    destruct (status (execute env c b)) eqn:Hs; try (left; discriminate).
    right. now apply (reported_origin env c).
Qed.

(** ** Who may change the status, and from where *)

(** X5.  The customer of a booking can cancel it from every status except
    completed, cancelled and rejected (so also while it is in progress,
    awaiting verification or reported); from these three the request is
    refused with 400 and a message that names the status. *)
Theorem customer_cancellation
    (env : Env) (user : User) (body : StatusBody) (b : Booking) :
  isCustomerOf user b = true ->
  body_status body = "cancelled" ->
  patchStatus env user body (Some b)
  = (if statusIn (status b) [Completed; Cancelled; Rejected] then
       Reply 400 ("Cannot cancel a booking that is already "
                  ++ statusName (status b) ++ ".")
     else Saved (statusWrites env user body Cancelled b))
  /\ status (statusWrites env user body Cancelled b) = Cancelled.
Proof.
  intros Hc Ht. split; [| apply statusWrites_status].
  unfold statusWrites, notesWrites, otpWrites, completionWrites, statusEntry.
  destruct b as [cust vu st sd pay addr nt rt co ce dp tl].
  destruct body as [target nts otp].
  unfold isCustomerOf in *. simpl in *. subst target.
  unfold_routes. simpl. rewrite Hc. simpl.
  destruct (idEquals vu (user_id user)); destruct st; simpl;
    destruct (truthy nts); reflexivity.
Qed.

Lemma customer_cancellation_witness :
  (exists b',
     patchStatus sampleEnv theCustomer (mkStatusBody "cancelled" None None)
       (Some sampleBooking) = Saved b'
     /\ status b' = Cancelled)
  /\ patchStatus sampleEnv theCustomer (mkStatusBody "cancelled" None None)
       (Some completedBooking)
     = Reply 400 "Cannot cancel a booking that is already completed.".
Proof.
  split.
  - eexists. split.
    + exact (proj1 (customer_cancellation sampleEnv theCustomer
                      (mkStatusBody "cancelled" None None) sampleBooking
                      eq_refl eq_refl)).
    + reflexivity.
  - exact (proj1 (customer_cancellation sampleEnv theCustomer
                    (mkStatusBody "cancelled" None None) completedBooking
                    eq_refl eq_refl)).
Defined.

(** X6.  An admin who is not a participant of the booking can set every
    one of the seven valid statuses from every current status: no status is
    final for an admin. *)
Theorem admin_sets_any_status
    (env : Env) (user : User) (body : StatusBody) (b : Booking) :
  isAdmin user = true ->
  isCustomerOf user b = false ->
  isVendorOf user b = false ->
  includes (body_status body) validStatuses = true ->
  exists st,
    statusOfString (body_status body) = Some st
    /\ patchStatus env user body (Some b)
       = Saved (statusWrites env user body st b)
    /\ status (statusWrites env user body st b) = st.
Proof.
  intros Ha Hc Hv Hi.
  assert (Hs : exists st, statusOfString (body_status body) = Some st).
  { apply includes_validStatuses in Hi.
    destruct Hi as [-> | [-> | [-> | [-> | [-> | [-> | ->]]]]]];
      eexists; reflexivity. }
  destruct Hs as [st Hs]. exists st. split; [exact Hs |].
  split; [| apply statusWrites_status].
  unfold patchStatus. rewrite Hi. cbn [negb withBooking].
  unfold statusWrites, notesWrites, otpWrites, completionWrites, statusEntry.
  unfold changeStatus, verifyCompletion, assignStatus.
  cbv [bind when respond update load ret Saved].
  rewrite Ha, Hc, Hv, Hs. cbn [negb andb].
  destruct ((body_status body =? "completed")%string
            && status_eqb (status b) VerificationPending);
    cbn [negb]; rewrite ?Hv, ?Ha; cbn [negb];
    destruct (body_status body =? "verification-pending")%string;
    destruct (truthy (body_notes body)); reflexivity.
Qed.

Lemma admin_sets_any_status_witness :
  exists st,
    statusOfString "pending" = Some st
    /\ patchStatus sampleEnv anAdmin (mkStatusBody "pending" None None)
         (Some completedBooking)
       = Saved (statusWrites sampleEnv anAdmin
                  (mkStatusBody "pending" None None) st completedBooking)
    /\ status (statusWrites sampleEnv anAdmin
                 (mkStatusBody "pending" None None) st completedBooking)
       = st.
Proof.
  apply (admin_sets_any_status sampleEnv anAdmin
           (mkStatusBody "pending" None None) completedBooking);
    reflexivity.
Defined.

(** X7.  The status change of the vendor router looks at the sender's role
    and verification and at the target only: a verified vendor sets any of
    confirmed, in-progress, verification-pending and cancelled on any
    existing booking, whoever its vendor is and whatever its status; the
    payment, the completion code and the dispute are left as they were, so
    a booking that becomes verification-pending this way gets no code. *)
Theorem vendor_route_ignores_ownership
    (env : Env) (user : User) (body : VendorStatusBody) (b : Booking) :
  role user = "vendor" ->
  includes (vs_status body) vendorRouteStatuses = true ->
  exists b' st,
    vendorPatchStatus env user (Some "verified") body (Some b) = Saved b'
    /\ statusOfString (vs_status body) = Some st
    /\ status b' = st
    /\ completionOtp b' = completionOtp b
    /\ completionOtpExpires b' = completionOtpExpires b
    /\ payment b' = payment b
    /\ dispute b' = dispute b.
Proof.
  intros Hr Hi.
  destruct (vendorPatchStatus_accepted env user body b Hr Hi) as [st [Hs A]].
  exists (vendorWrites env body st b), st.
  split; [exact A |]. split; [exact Hs |].
  unfold vendorWrites, vendorNotesWrites.
  destruct (notes (set_status st b)); destruct (truthy (vs_vendorNotes body));
    simpl; fields; auto 10.
Qed.

Lemma vendor_route_ignores_ownership_witness :
  isVendorOf (mkUser "v2" "vendor") completedBooking = false
  /\ exists b' st,
       vendorPatchStatus sampleEnv (mkUser "v2" "vendor") (Some "verified")
         (mkVendorStatusBody "verification-pending" None)
         (Some completedBooking) = Saved b'
       /\ statusOfString "verification-pending" = Some st
       /\ status b' = st
       /\ completionOtp b' = completionOtp completedBooking
       /\ completionOtpExpires b' = completionOtpExpires completedBooking
       /\ payment b' = payment completedBooking
       /\ dispute b' = dispute completedBooking.
Proof.
  split; [reflexivity |].
  apply (vendor_route_ignores_ownership sampleEnv (mkUser "v2" "vendor")
           (mkVendorStatusBody "verification-pending" None) completedBooking);
    reflexivity.
Defined.

(** ** Disputes *)

Lemma disputeWrites_fields env user body b :
  let b' := disputeWrites env user body b in
  status b' = Reported
  /\ dispute b' = Some (openedDispute env user body)
  /\ disputeIsOpen b' = true
  /\ payment b' = payment b
  /\ completionOtp b' = completionOtp b
  /\ rating b' = rating b
  /\ customer b' = customer b
  /\ vendorUser b' = vendorUser b
  /\ timeline b' = (timeline b ++ [disputeEntry env user body])%list.
Proof. cbv zeta. unfold disputeWrites. simpl. auto 10. Qed.

(** X8.  A dispute is accepted from the customer or the vendor of the
    booking, with a reason and a description, while the booking is
    in-progress, verification-pending or completed and has no open dispute:
    the booking becomes reported, its dispute sub-record is replaced by an
    open one of the sender (any earlier resolution is gone), one timeline
    entry is appended, and payment, completion code and rating stay.  Every
    other request, that of an admin who is not a participant included, is
    refused with 400 or 403 and changes nothing. *)
Theorem dispute_raise
    (env : Env) (user : User) (body : DisputeBody) (b : Booking) :
  match postDispute env user body (Some b) with
  | Next _ b' =>
      truthy (d_reason body) = true
      /\ truthy (d_description body) = true
      /\ isCustomerOf user b || isVendorOf user b = true
      /\ statusIn (status b) [InProgress; VerificationPending; Completed]
         = true
      /\ disputeIsOpen b = false
      /\ status b' = Reported
      /\ dispute b' = Some (openedDispute env user body)
      /\ payment b' = payment b
      /\ completionOtp b' = completionOtp b
      /\ rating b' = rating b
      /\ timeline b' = (timeline b ++ [disputeEntry env user body])%list
  | Reply code e =>
      (code = 400 \/ code = 403)
      /\ disputeAllowed user body b = false
      /\ persisted b (postDispute env user body (Some b)) = b
  end.
Proof.
  destruct (disputeAllowed user body b) eqn:A.
  - rewrite (postDispute_accepted env _ _ _ A). unfold Saved.
    unfold disputeAllowed in A.
    repeat (apply andb_true_iff in A; destruct A as [A ?]).
    apply negb_true_iff in H.
    pose proof (disputeWrites_fields env user body b) as F. cbv zeta in F.
    destruct F as (F1 & F2 & _ & F4 & F5 & F6 & _ & _ & F9).
    auto 12.
  - destruct (postDispute_refused env _ _ _ A) as (code & e & R & Hc).
    rewrite R. auto.
Qed.

(** X9.  While a dispute raised through the route stands, no second one
    can be raised: on the booking an accepted dispute leaves behind, every
    further dispute request is refused, by whomever and whenever. *)
Theorem dispute_raise_once
    (env env' : Env) (user user' : User) (body body' : DisputeBody)
    (b b' : Booking) :
  postDispute env user body (Some b) = Saved b' ->
  exists code e,
    postDispute env' user' body' (Some b') = Reply code e
    /\ (code = 400 \/ code = 403)
    /\ persisted b' (postDispute env' user' body' (Some b')) = b'.
Proof.
  intro E. apply postDispute_saved in E. destruct E as [_ ->].
  assert (A : disputeAllowed user' body' (disputeWrites env user body b)
              = false).
  { unfold disputeAllowed. simpl. now rewrite !andb_false_r. }
  destruct (postDispute_refused env' _ _ _ A) as (code & e & R & Hc).
  exists code, e. rewrite R. auto.
Qed.

Lemma dispute_raise_once_witness :
  postDispute sampleEnv theCustomer aDispute (Some completedBooking)
  = Saved reportedBooking
  /\ exists code e,
       postDispute sampleEnv theVendor aDispute (Some reportedBooking)
       = Reply code e
       /\ (code = 400 \/ code = 403)
       /\ persisted reportedBooking
            (postDispute sampleEnv theVendor aDispute (Some reportedBooking))
          = reportedBooking.
Proof.
  assert (E : postDispute sampleEnv theCustomer aDispute
                (Some completedBooking) = Saved reportedBooking)
    by reflexivity.
  split; [exact E |].
  exact (@dispute_raise_once sampleEnv sampleEnv theCustomer theVendor
           aDispute aDispute completedBooking reportedBooking E).
Defined.



(** X11.  What a resolution leaves possible.  After a resolution with
    completed, a participant can report the booking again, and the new
    dispute replaces the resolved one, resolution text included.  After a
    resolution with cancelled every further dispute is refused. *)
Theorem dispute_after_resolution
    (env env' : Env) (admin user : User) (rbody : ResolveBody)
    (body : DisputeBody) (b b' : Booking) :
  patchResolve env admin rbody (Some b) = Saved b' ->
  truthy (d_reason body) = true ->
  truthy (d_description body) = true ->
  isCustomerOf user b || isVendorOf user b = true ->
  (r_finalStatus rbody = Some "completed"
   /\ exists b'',
        postDispute env' user body (Some b') = Saved b''
        /\ status b'' = Reported
        /\ dispute b'' = Some (openedDispute env' user body)
        /\ resolution (openedDispute env' user body) = None)
  \/ (r_finalStatus rbody = Some "cancelled"
      /\ postDispute env' user body (Some b')
         = Reply 400 ("Cannot report an issue for a booking with status "
                      ++ dq ++ "cancelled" ++ dq ++ ".")).
Proof.
  intros E Hr Hd Hp. apply patchResolve_saved in E.
  destruct E as (final & st & _ & Hf & Hfin & Hs & ->).
  remember (disputeOf b) as d eqn:Hdis.
  assert (Hpart : isCustomerOf user
                    (resolveWrites env admin final
                       (orElse (r_resolution rbody) "") st d b)
                  || isVendorOf user
                       (resolveWrites env admin final
                          (orElse (r_resolution rbody) "") st d b) = true).
  { unfold isCustomerOf, isVendorOf, resolveWrites in *. simpl.
    rewrite ?set_payment_status_customer, ?set_payment_status_vendorUser.
    exact Hp. }
  destruct Hfin as [-> | ->]; inversion Hs; subst st; [left | right];
    (split; [exact Hf |]).
  - eexists. split.
    + apply postDispute_accepted. unfold disputeAllowed.
      rewrite Hr, Hd, Hpart. unfold resolveWrites, disputeIsOpen. simpl.
      fields. reflexivity.
    + repeat split.
  - unfold postDispute. rewrite Hr, Hd. cbn [negb orb withBooking].
    unfold raiseDispute. cbv [bind when respond update load ret].
    apply orb_true_iff in Hpart.
    assert (Hn : negb (isCustomerOf user
                         (resolveWrites env admin "cancelled"
                            (orElse (r_resolution rbody) "") Cancelled d b))
                 && negb (isVendorOf user
                            (resolveWrites env admin "cancelled"
                               (orElse (r_resolution rbody) "") Cancelled d b))
                 = false)
      by (destruct Hpart as [-> | ->]; [reflexivity | apply andb_false_r]).
    rewrite Hn. unfold resolveWrites. simpl. fields. reflexivity.
Qed.

Lemma dispute_after_resolution_witness :
  (r_finalStatus secondResolution = Some "completed"
   /\ exists b'',
        postDispute sampleEnv theCustomer aDispute
          (Some (persisted reportedBooking
                   (patchResolve sampleEnv anAdmin secondResolution
                      (Some reportedBooking))))
        = Saved b''
        /\ status b'' = Reported
        /\ dispute b'' = Some (openedDispute sampleEnv theCustomer aDispute)
        /\ resolution (openedDispute sampleEnv theCustomer aDispute) = None)
  \/ (r_finalStatus secondResolution = Some "cancelled"
      /\ postDispute sampleEnv theCustomer aDispute
           (Some (persisted reportedBooking
                    (patchResolve sampleEnv anAdmin secondResolution
                       (Some reportedBooking))))
         = Reply 400 ("Cannot report an issue for a booking with status "
                      ++ dq ++ "cancelled" ++ dq ++ ".")).
Proof.
  apply (@dispute_after_resolution sampleEnv sampleEnv anAdmin theCustomer
           secondResolution aDispute reportedBooking);
    reflexivity.
Defined.

(** ** The code, from generation to completion *)

Lemma truthy_not_stale env b :
  otpStale env b = false -> truthy (completionOtp b) = true.
Proof.
  unfold otpStale. intro H. apply orb_false_iff in H. destruct H as [H _].
  now apply negb_false_iff in H.
Qed.

Lemma getOtp_saved env user b a b' :
  getOtp env user (Some b) = Next a b' ->
  isCustomerOf user b = true
  /\ status b = VerificationPending
  /\ a = completionOtp b'
  /\ truthy a = true
  /\ b' = (if otpStale env b then
             set_completionOtpExpires (Some (now env + 600000))
               (set_completionOtp (Some (generateOtp env)) b)
           else b).
Proof.
  unfold getOtp, withBooking, fetchOtp.
  cbv [bind when respond update load ret]. intro H.
  destruct (isCustomerOf user b); cbn [negb] in H; [| discriminate].
  destruct (status_eqb (status b) VerificationPending) eqn:Es;
    cbn [negb] in H; [| discriminate].
  apply status_eqb_eq in Es.
  destruct (otpStale env b) eqn:St; simpl in H; inversion H; subst;
    repeat split; auto.
  - apply generateOtp_truthy.
  - now apply (truthy_not_stale env).
Qed.

(** X12.  Fetching the code is stable.  A fetch that is answered leaves a
    stored code with an expiry that is not before the time of the fetch,
    and until that expiry every further fetch by the customer answers the
    same code and changes nothing. *)
Theorem fetch_is_stable
    (env : Env) (user : User) (b b' : Booking) (code : option string) :
  getOtp env user (Some b) = Next code b' ->
  exists e,
    completionOtpExpires b' = Some e
    /\ now env <= e
    /\ truthy code = true
    /\ forall env', now env' <= e ->
         getOtp env' user (Some b') = Next code b'.
Proof.
  intro H. apply getOtp_saved in H.
  destruct H as (Hc & Hs & Ha & Ht & Hb).
  assert (He : exists e, completionOtpExpires b' = Some e /\ now env <= e).
  { subst b'. destruct (otpStale env b) eqn:St.
    - eexists. split; [reflexivity | lia].
    - unfold otpStale in St. apply orb_false_iff in St. destruct St as [_ St].
      destruct (completionOtpExpires b) as [e |]; [| discriminate].
      exists e. split; [reflexivity |]. apply Z.ltb_ge in St. exact St. }
  destruct He as (e & He & Hle). exists e.
  split; [exact He |]. split; [exact Hle |]. split; [exact Ht |].
  intros env' Hn.
  assert (Hc' : isCustomerOf user b' = true).
  { subst b'. destruct (otpStale env b); exact Hc. }
  assert (Hs' : status b' = VerificationPending).
  { subst b'. destruct (otpStale env b); exact Hs. }
  rewrite (getOtp_answer env' _ _ Hs' Hc').
  assert (St' : otpStale env' b' = false).
  { unfold otpStale. rewrite He. rewrite <- Ha, Ht. simpl.
    apply Z.ltb_ge. exact Hn. }
  rewrite St'. now rewrite Ha.
Qed.

Lemma fetch_is_stable_witness :
  exists e,
    completionOtpExpires
      (set_completionOtpExpires (Some 1500000)
         (set_completionOtp (Some "123456") sampleBooking)) = Some e
    /\ now sampleEnv <= e
    /\ truthy (Some "123456") = true
    /\ forall env', now env' <= e ->
         getOtp env' theCustomer
           (Some (set_completionOtpExpires (Some 1500000)
                    (set_completionOtp (Some "123456") sampleBooking)))
         = Next (Some "123456")
             (set_completionOtpExpires (Some 1500000)
                (set_completionOtp (Some "123456") sampleBooking)).
Proof.
  apply (@fetch_is_stable sampleEnv theCustomer sampleBooking).
  reflexivity.
Defined.

(** X13.  The code the customer is given completes the booking: after an
    answered fetch, the request for completed of the booking's vendor with
    the code of the answer is accepted, at any later time, and clears the
    code; unless the vendor's account is also the customer of the booking,
    for whom the same request is refused with 403 by the customer rules. *)
Theorem fetched_code_completes
    (env env' : Env) (cust vendor : User) (b b' : Booking)
    (code notes : option string) :
  getOtp env cust (Some b) = Next code b' ->
  isVendorOf vendor b = true ->
  if isCustomerOf vendor b then
    patchStatus env' vendor (mkStatusBody "completed" notes code) (Some b')
    = Reply 403 "As a customer, you can only cancel a booking."
  else
    exists b'',
      patchStatus env' vendor (mkStatusBody "completed" notes code) (Some b')
      = Saved b''
      /\ status b'' = Completed
      /\ completionOtp b'' = None.
Proof.
  intros H Hv. apply getOtp_saved in H.
  destruct H as (_ & Hs & Ha & Ht & Hb).
  assert (Hs' : status b' = VerificationPending)
    by (subst b'; destruct (otpStale env b); exact Hs).
  assert (Hv' : isVendorOf vendor b' = true)
    by (subst b'; destruct (otpStale env b); exact Hv).
  assert (Hc' : isCustomerOf vendor b' = isCustomerOf vendor b)
    by (subst b'; destruct (otpStale env b); reflexivity).
  destruct (isCustomerOf vendor b) eqn:Hc.
  - apply own_booking_completion_refused; auto.
  - exists (statusWrites env' vendor (mkStatusBody "completed" notes code)
              Completed b').
    split.
    + apply vendor_completion_accepted; auto.
    + destruct (@completion_fields env' vendor
                  (mkStatusBody "completed" notes code) b' Hs' eq_refl)
        as (A & B & _). auto.
Qed.

Lemma fetched_code_completes_witness :
  exists b'',
    patchStatus sampleEnv theVendor
      (mkStatusBody "completed" None (Some "123456"))
      (Some (set_completionOtpExpires (Some 1500000)
               (set_completionOtp (Some "123456") sampleBooking)))
    = Saved b''
    /\ status b'' = Completed
    /\ completionOtp b'' = None.
Proof.
  apply (@fetched_code_completes sampleEnv sampleEnv theCustomer theVendor
           sampleBooking
           (set_completionOtpExpires (Some 1500000)
              (set_completionOtp (Some "123456") sampleBooking))
           (Some "123456") None);
    reflexivity.
Defined.

(** X14.  The code generated when a booking enters verification-pending
    on the booking router is the one the customer fetches during the next
    ten minutes; a fetch after that replaces it by a fresh code. *)
Theorem generated_code_is_fetched
    (env env' : Env) (user cust : User) (body : StatusBody) (b b' : Booking) :
  patchStatus env user body (Some b) = Saved b' ->
  body_status body = "verification-pending" ->
  isCustomerOf cust b = true ->
  (now env' <= now env + 600000 ->
   getOtp env' cust (Some b') = Next (Some (generateOtp env)) b')
  /\ (now env + 600000 < now env' ->
      getOtp env' cust (Some b')
      = Next (Some (generateOtp env'))
          (set_completionOtpExpires (Some (now env' + 600000))
             (set_completionOtp (Some (generateOtp env')) b'))).
Proof.
  intros E Ht Hc. apply patchStatus_saved in E. destruct E as [st [Hs ->]].
  rewrite Ht in Hs. inversion Hs. subst st.
  set (b' := statusWrites env user body VerificationPending b).
  assert (Hst : status b' = VerificationPending)
    by apply statusWrites_status.
  assert (Hcu : isCustomerOf cust b' = true).
  { unfold isCustomerOf, b'.
    rewrite statusWrites_keeps; auto using set_payment_status_customer. }
  assert (Ho : completionOtp b' = Some (generateOtp env)).
  { unfold b'. rewrite statusWrites_completionOtp.
    unfold otpAfterStatusChange. now rewrite Ht. }
  assert (He : completionOtpExpires b' = Some (now env + 600000)).
  { unfold b', statusWrites, notesWrites, otpWrites. rewrite Ht. simpl.
    destruct (truthy (body_notes body)); simpl; fields; reflexivity. }
  rewrite (getOtp_answer env' _ _ Hst Hcu).
  unfold otpStale. rewrite Ho, He, generateOtp_truthy. cbn [negb orb].
  split; intro Hn.
  - assert (L : (now env + 600000 <? now env') = false)
      by (apply Z.ltb_ge; lia).
    now rewrite L.
  - assert (L : (now env + 600000 <? now env') = true)
      by (apply Z.ltb_lt; lia).
    now rewrite L.
Qed.

Lemma generated_code_is_fetched_witness :
  getOtp earlyEnv theCustomer (Some awaitingVerification)
  = Next (Some (generateOtp earlyEnv)) awaitingVerification
  /\ getOtp sampleEnv theCustomer (Some awaitingVerification)
     = Next (Some (generateOtp sampleEnv))
         (set_completionOtpExpires (Some (now sampleEnv + 600000))
            (set_completionOtp (Some (generateOtp sampleEnv))
               awaitingVerification)).
Proof.
  assert (E : patchStatus earlyEnv theVendor
                (mkStatusBody "verification-pending" None None)
                (Some (execute earlyEnv (vendorSets "in-progress" None)
                         (execute earlyEnv (vendorSets "confirmed" None)
                            createdBooking)))
              = Saved awaitingVerification) by reflexivity.
  split.
  - apply (proj1 (@generated_code_is_fetched earlyEnv earlyEnv theVendor
                    theCustomer _ _ _ E eq_refl eq_refl)).
    simpl. lia.
  - apply (proj2 (@generated_code_is_fetched earlyEnv sampleEnv theVendor
                    theCustomer _ _ _ E eq_refl eq_refl)).
    simpl. lia.
Defined.

(** ** Edits *)

(** X15.  An edit is accepted only from the customer of the booking or an
    admin, only while the booking is pending or confirmed, and only with a
    date that can be stored; it is refused with 403, 400 and 500 on the
    first of these that fails, and a refused edit changes nothing.  An
    accepted edit changes nothing but the date, the address and the
    customer's notes: status, payment, code, dispute and rating stay; a
    date that is sent and not zero replaces the stored one; the address
    sent is merged into the stored one; notes that are sent and not empty
    become the customer's notes, the vendor's notes staying, also on a
    booking that had no notes before; and exactly one timeline entry with
    the status updated is appended. *)
Theorem edit_scope
    (env : Env) (user : User) (body : EditBody) (b : Booking) :
  match putBooking env user body (Some b) with
  | Next _ b' =>
      isCustomerOf user b || isAdmin user = true
      /\ statusIn (status b) [Pending; Confirmed] = true
      /\ dateStorable body = true
      /\ status b' = status b
      /\ payment b' = payment b
      /\ completionOtp b' = completionOtp b
      /\ completionOtpExpires b' = completionOtpExpires b
      /\ dispute b' = dispute b
      /\ rating b' = rating b
      /\ scheduledDate b'
         = match e_scheduledDate body with
           | Some d => if d =? 0 then scheduledDate b else d
           | None => scheduledDate b
           end
      /\ address b'
         = match e_address body with
           | Some a => Some (mergeAddress (address b) a)
           | None => address b
           end
      /\ notes b'
         = (if truthy (e_notes body)
            then Some (mkNotes (e_notes body) (vendorNotes (notesOf b)))
            else notes b)
      /\ timeline b' = (timeline b ++ [editEntry env user body])%list
      /\ entry_status (editEntry env user body) = "updated"
  | Reply code e =>
      ((code = 403 /\ isCustomerOf user b || isAdmin user = false)
       \/ (code = 400 /\ isCustomerOf user b || isAdmin user = true
           /\ statusIn (status b) [Pending; Confirmed] = false)
       \/ (code = 500 /\ isCustomerOf user b || isAdmin user = true
           /\ statusIn (status b) [Pending; Confirmed] = true
           /\ exists d, e_scheduledDate body = Some d
                        /\ d <> 0 /\ maxTime < Z.abs d))
      /\ persisted b (putBooking env user body (Some b)) = b
  end.
Proof.
  rewrite putBooking_normal.
  destruct (editAllowed user body b) eqn:A.
  - unfold Saved. unfold editAllowed in A.
    repeat (apply andb_true_iff in A; destruct A as [A ?]).
    split; [exact A |]. split; [assumption |]. split; [assumption |].
    assert (N : truthy (e_notes body) = true ->
                Some (orElse (e_notes body) "") = e_notes body).
    { destruct (e_notes body) as [s |]; [| discriminate]. simpl.
      now destruct (s =? "")%string. }
    unfold editWrites, editFields, dateGiven, notesOf.
    destruct (e_scheduledDate body) as [d |]; [destruct (d =? 0) |];
      destruct (e_address body), (truthy (e_notes body));
      cbn [negb]; simpl; rewrite ?N by reflexivity; auto 15.
  - unfold editAllowed in A.
    destruct (isCustomerOf user b || isAdmin user) eqn:P.
    + destruct (statusIn (status b) [Pending; Confirmed]) eqn:S.
      * assert (Hn : negb (isCustomerOf user b) && negb (isAdmin user)
                     = false).
        { destruct (isCustomerOf user b), (isAdmin user);
            try reflexivity; discriminate. }
        rewrite Hn. cbn [negb]. cbn [andb] in A.
        split; [| reflexivity]. right. right. split; [reflexivity |].
        split; [reflexivity |]. split; [reflexivity |].
        unfold dateStorable, dateGiven, validTime in A.
        destruct (e_scheduledDate body) as [d |]; [| discriminate].
        exists d. split; [reflexivity |].
        destruct (d =? 0) eqn:Z0; [discriminate |]. cbn [negb orb] in A.
        split; [now apply Z.eqb_neq | now apply Z.leb_gt].
      * assert (Hn : negb (isCustomerOf user b) && negb (isAdmin user)
                     = false).
        { destruct (isCustomerOf user b), (isAdmin user);
            try reflexivity; discriminate. }
        rewrite Hn. cbn [negb]. split; [| reflexivity]. auto.
    + assert (Hn : negb (isCustomerOf user b) && negb (isAdmin user) = true).
      { destruct (isCustomerOf user b), (isAdmin user);
          try reflexivity; discriminate. }
      rewrite Hn. split; [| reflexivity]. auto.
Qed.

(** ** What a reader is shown *)

(** X16.  The detail view is for the customer, the vendor and admins only
    (every other reader is refused with 403, and these three never are),
    and withholds the counter-party's phone number by status: the vendor of
    the booking gets the customer's number, and the customer the vendor's,
    only while the booking is confirmed, in-progress or completed; a number
    is never withheld from anyone else, and the booking itself is shown as
    stored. *)
Theorem detail_view_privacy (user : User) (o : BookingObject) :
  match getBooking user (Some o) with
  | Refused code e =>
      code = 403
      /\ isCustomerOf user (obj_booking o) = false
      /\ isVendorOf user (obj_booking o) = false
      /\ isAdmin user = false
  | Sent o' =>
      isCustomerOf user (obj_booking o) || isVendorOf user (obj_booking o)
      || isAdmin user = true
      /\ obj_booking o' = obj_booking o
      /\ customerPhone o'
         = (if isVendorOf user (obj_booking o)
               && negb (canViewContactInfo (status (obj_booking o)))
            then None else customerPhone o)
      /\ vendorPhone o'
         = (if isCustomerOf user (obj_booking o)
               && negb (canViewContactInfo (status (obj_booking o)))
            then None else vendorPhone o)
      /\ (canViewContactInfo (status (obj_booking o)) = false \/ o' = o)
  end.
Proof.
  unfold getBooking.
  destruct (isCustomerOf user (obj_booking o)),
    (isVendorOf user (obj_booking o)), (isAdmin user);
    cbn [negb andb]; auto;
    destruct (canViewContactInfo (status (obj_booking o)));
    cbn [negb andb]; repeat split; auto.
Qed.

Lemma listItem_booking o : obj_booking (listItem o) = obj_booking o.
Proof.
  unfold listItem. now destruct (canViewContactInfo (status (obj_booking o))).
Qed.

Lemma listItem_matches env user myVendor view o :
  matchesRole user myVendor (listItem o) = matchesRole user myVendor o
  /\ matchesView env view (listItem o) = matchesView env view o.
Proof.
  unfold listItem.
  destruct (canViewContactInfo (status (obj_booking o))); split; reflexivity.
Qed.

(** X17.  The list shows a reader only bookings of their own (a customer
    those they booked, a vendor those of their vendor document, an admin
    all, any other role none) that match the view, and it withholds both
    phone numbers of every booking that is not confirmed, in-progress or
    completed, from every reader, admins included. *)
Theorem list_view_scope
    (env : Env) (user : User) (myVendor : option ObjectId)
    (view : option string) (stored : list BookingObject) :
  Forall
    (fun o' =>
       matchesRole user myVendor o' = true
       /\ matchesView env view o' = true
       /\ (canViewContactInfo (status (obj_booking o')) = true
           \/ customerPhone o' = None /\ vendorPhone o' = None)
       /\ exists o, In o stored /\ o' = listItem o)
    (listBookings env user myVendor view stored).
Proof.
  unfold listBookings. apply Forall_forall. intros o' Hin.
  apply in_map_iff in Hin. destruct Hin as (o & <- & Hin).
  apply filter_In in Hin. destruct Hin as [Hin Hm].
  apply andb_true_iff in Hm. destruct Hm as [Hr Hv].
  destruct (listItem_matches env user myVendor view o) as [-> ->].
  split; [exact Hr |]. split; [exact Hv |]. split; [| eauto].
  rewrite listItem_booking. unfold listItem.
  destruct (canViewContactInfo (status (obj_booking o))); auto.
Qed.

(** X18.  The five status tabs of the list split the bookings: a booking
    whose status is not reported is shown under exactly one of pending,
    confirmed, in-progress, completed and cancelled (verification-pending
    under in-progress, rejected under cancelled), and a reported booking
    under none of them. *)
Theorem status_tabs_partition (env : Env) (o : BookingObject) :
  List.length (filter (fun v => matchesView env (Some v) o) statusTabs)
  = (if status_eqb (status (obj_booking o)) Reported then 0 else 1)%nat.
Proof.
  unfold statusTabs, matchesView.
  destruct (status (obj_booking o)); reflexivity.
Qed.

(** ** Creating a booking *)


(** ** Messages *)

(** X20.  A message for a booking goes to a participant of that booking
    only: for a customer the account of the vendor, for the vendor the
    customer, and for an admin the participant the request names; a sender
    who is none of these is refused. *)
Theorem message_goes_to_a_participant
    (user : User) (recipientId : option ObjectId) (b : Booking) :
  match messageRecipient user recipientId (Some b) with
  | Sent r =>
      (r = customer b \/ vendorUser b = Some r)
      /\ (role user = "admin" /\ recipientId = Some r
          \/ role user <> "admin" /\ isCustomerOf user b = true
             /\ vendorUser b = Some r
          \/ role user <> "admin" /\ isCustomerOf user b = false
             /\ isVendorOf user b = true /\ r = customer b)
  | Refused code e =>
      code = 400 \/ code = 403 \/ code = 500
  end.
Proof.
  unfold messageRecipient.
  destruct (role user =? "admin")%string eqn:Ea.
  - apply String.eqb_eq in Ea.
    destruct recipientId as [rid |]; simpl; [| auto].
    destruct (rid =? "")%string eqn:Er; simpl; [auto |].
    destruct (customer b =? rid)%string eqn:Ec.
    + apply String.eqb_eq in Ec. auto.
    + destruct (vendorUser b) as [v |]; [| auto].
      destruct (v =? rid)%string eqn:Ev; [| auto].
      apply String.eqb_eq in Ev. subst v. auto.
  - apply String.eqb_neq in Ea.
    destruct (isCustomerOf user b) eqn:Hc.
    + destruct (vendorUser b) as [v |]; auto 6.
    + destruct (isVendorOf user b) eqn:Hv; auto 8.
Qed.

(** ** Accounts *)

Lemma findById_id k store u : findById k store = Some u -> acc_id u = k.
Proof.
  unfold findById. intro H. apply find_some in H. destruct H as [_ H].
  now apply String.eqb_eq in H.
Qed.

Lemma findById_replace_other k u store :
  acc_id u <> k -> findById k (replaceById u store) = findById k store.
Proof.
  intro Hn. induction store as [| x rest IH]; [reflexivity |].
  simpl. destruct (acc_id x =? acc_id u)%string eqn:E.
  - apply String.eqb_eq in E. simpl.
    assert (E1 : (acc_id u =? k)%string = false)
      by now apply String.eqb_neq.
    assert (E2 : (acc_id x =? k)%string = false)
      by (apply String.eqb_neq; congruence).
    now rewrite E1, E2.
  - simpl. destruct (acc_id x =? k)%string; [reflexivity | exact IH].
Qed.

Lemma findById_replace_same k u u0 store :
  findById k store = Some u0 -> acc_id u = k ->
  findById k (replaceById u store) = Some u.
Proof.
  intros H Hu. induction store as [| x rest IH]; [discriminate |].
  simpl in *. rewrite Hu.
  destruct (acc_id x =? k)%string eqn:E.
  - simpl. rewrite <- Hu at 1. now rewrite String.eqb_refl.
  - simpl. rewrite E. now apply IH.
Qed.

Lemma findById_delete_other k id store :
  id <> k -> findById k (deleteById id store) = findById k store.
Proof.
  intro Hn. induction store as [| x rest IH]; [reflexivity |].
  simpl. destruct (acc_id x =? id)%string eqn:E.
  - apply String.eqb_eq in E.
    assert (E2 : (acc_id x =? k)%string = false)
      by (apply String.eqb_neq; congruence).
    now rewrite E2.
  - simpl. destruct (acc_id x =? k)%string; [reflexivity | exact IH].
Qed.

Lemma accountStep_keeps_actor isValid actor store r :
  findById (user_id actor) (accountStep isValid actor store r)
  = findById (user_id actor) store.
Proof.
  destruct r as [id body | id]; unfold accountStep, updateUser, deleteUser.
  - destruct (negb (isValid id)); [reflexivity |].
    destruct (findById id store) as [u |] eqn:F; [| reflexivity].
    destruct (isSelf (Some actor) u) eqn:S; [reflexivity |].
    destruct (truthy (uu_role body)
              && negb (includes (orElse (uu_role body) "") allowedRoles));
      [reflexivity |].
    cbn [snd]. apply findById_replace_other. simpl in *.
    now apply String.eqb_neq.
  - destruct (negb (isValid id)); [reflexivity |].
    destruct (findById id store) as [u |] eqn:F; [| reflexivity].
    destruct (isSelf (Some actor) u) eqn:S; [reflexivity |].
    cbn [snd]. apply findById_delete_other.
    apply findById_id in F. simpl in S. apply String.eqb_neq in S.
    congruence.
Qed.

(** X21.  An admin cannot touch their own account through the user
    endpoints: after any sequence of update and delete requests of an
    admin, the admin's own account is in the collection as it was, with
    the same role and flags. *)
Theorem own_account_is_untouched
    (isValid : string -> bool) (actor : User)
    (requests : list AccountRequest) (store : list Account) :
  findById (user_id actor)
    (fold_left (accountStep isValid actor) requests store)
  = findById (user_id actor) store.
Proof.
  revert store. induction requests as [| r rest IH]; intro store;
    [reflexivity |].
  simpl. rewrite IH. apply accountStep_keeps_actor.
Qed.

Lemma replaceById_Forall (P : Account -> Prop) u store :
  P u -> Forall P store -> Forall P (replaceById u store).
Proof.
  intros Hu H. induction H as [| x rest Hx Hr IH]; simpl; [constructor |].
  destruct (acc_id x =? acc_id u)%string; constructor; auto.
Qed.

Lemma deleteById_Forall (P : Account -> Prop) id store :
  Forall P store -> Forall P (deleteById id store).
Proof.
  intro H. induction H as [| x rest Hx Hr IH]; simpl; [constructor |].
  destruct (acc_id x =? id)%string; [exact Hr | constructor; auto].
Qed.

Lemma includes_In s l : includes s l = true -> In s l.
Proof.
  unfold includes. intro H. apply existsb_exists in H.
  destruct H as (x & Hx & E). apply String.eqb_eq in E. now subst.
Qed.

(** X22.  The user endpoints keep the roles valid: when every account has
    one of the roles customer, vendor and admin, so has every account after
    any request of an admin; and an update that names another role changes
    nothing, the activity flag included. *)
Theorem roles_stay_valid
    (isValid : string -> bool) (actor : User) (r : AccountRequest)
    (store : list Account) :
  Forall (fun u => In (acc_role u) allowedRoles) store ->
  Forall (fun u => In (acc_role u) allowedRoles)
    (accountStep isValid actor store r)
  /\ match r with
     | UpdateUser id body =>
         truthy (uu_role body)
         && negb (includes (orElse (uu_role body) "") allowedRoles) = false
         \/ accountStep isValid actor store r = store
     | DeleteUser _ => True
     end.
Proof.
  intro H. split.
  - destruct r as [id body | id]; unfold accountStep, updateUser, deleteUser.
    + destruct (negb (isValid id)); [exact H |].
      destruct (findById id store) as [u |] eqn:F; [| exact H].
      destruct (isSelf (Some actor) u); [exact H |].
      destruct (truthy (uu_role body)) eqn:T; cbn [andb].
      * destruct (includes (orElse (uu_role body) "") allowedRoles) eqn:I;
          cbn [negb]; [| exact H].
        cbn [snd]. apply replaceById_Forall; [| exact H].
        unfold applyUpdate. rewrite T. cbn [acc_role].
        now apply includes_In.
      * cbn [snd]. apply replaceById_Forall; [| exact H].
        unfold applyUpdate. rewrite T. cbn [acc_role].
        unfold findById in F. apply find_some in F. destruct F as [F _].
        rewrite Forall_forall in H. exact (H u F).
    + destruct (negb (isValid id)); [exact H |].
      destruct (findById id store) as [u |]; [| exact H].
      destruct (isSelf (Some actor) u); [exact H |].
      cbn [snd]. now apply deleteById_Forall.
  - destruct r as [id body | id]; [| exact I].
    destruct (truthy (uu_role body)
              && negb (includes (orElse (uu_role body) "") allowedRoles))
      eqn:E; [right | now left].
    unfold accountStep, updateUser.
    destruct (negb (isValid id)); [reflexivity |].
    destruct (findById id store) as [u |]; [| reflexivity].
    destruct (isSelf (Some actor) u); [reflexivity |].
    now rewrite E.
Qed.

Lemma roles_stay_valid_witness :
  Forall (fun u => In (acc_role u) allowedRoles)
    (accountStep anyId anAdmin sampleAccounts
       (UpdateUser "c1" (mkUserUpdate (Some "vendor") (Some false))))
  /\ accountStep anyId anAdmin sampleAccounts
       (UpdateUser "c1" (mkUserUpdate (Some "owner") (Some false)))
     = sampleAccounts.
Proof.
  assert (H : Forall (fun u => In (acc_role u) allowedRoles) sampleAccounts)
    by (repeat constructor; simpl; auto).
  split.
  - exact (proj1 (roles_stay_valid anyId anAdmin
                    (UpdateUser "c1" (mkUserUpdate (Some "vendor")
                                        (Some false))) H)).
  - destruct (proj2 (roles_stay_valid anyId anAdmin
                       (UpdateUser "c1" (mkUserUpdate (Some "owner")
                                           (Some false))) H)) as [E | E];
      [discriminate | exact E].
Defined.

(** ** Verification of vendors *)



(** X24.  Only a verified vendor passes the gate of the vendor router.
    With the verification status that a verification request has stored,
    the status change of the vendor router is accepted when that status is
    verified and is refused with 403 when it is pending or rejected; and
    the verifier is recorded exactly when the vendor is verified. *)
Theorem verification_opens_the_vendor_router
    (env env' : Env) (admin user : User) (vstatus : string) (v : VendorDoc)
    (body : VendorStatusBody) (b : Booking) :
  includes vstatus verificationStatuses = true ->
  role user = "vendor" ->
  includes (vs_status body) vendorRouteStatuses = true ->
  (vstatus = "verified"
   /\ verifiedBy (verifiedVendor env admin vstatus v) = Some (user_id admin)
   /\ exists b',
        vendorPatchStatus env' user
          (Some (verificationStatus (verifiedVendor env admin vstatus v)))
          body (Some b) = Saved b')
  \/ (vstatus <> "verified"
      /\ verifiedBy (verifiedVendor env admin vstatus v) = None
      /\ vendorPatchStatus env' user
           (Some (verificationStatus (verifiedVendor env admin vstatus v)))
           body (Some b)
         = Reply 403 ("Access Forbidden. Vendor not verified (Status: "
                      ++ vstatus ++ ")")).
Proof.
  intros Hi Hr Hb.
  assert (Hst : verificationStatus (verifiedVendor env admin vstatus v)
                = vstatus).
  { unfold verifiedVendor. now destruct (vstatus =? "verified")%string. }
  rewrite Hst.
  destruct (vstatus =? "verified")%string eqn:E.
  - left. apply String.eqb_eq in E. split; [exact E |]. split.
    + unfold verifiedVendor. subst vstatus. reflexivity.
    + subst vstatus.
      destruct (vendorPatchStatus_accepted env' user body b Hr Hb)
        as [st [_ A]].
      eauto.
  - right. split; [now apply String.eqb_neq |]. split.
    + unfold verifiedVendor. now rewrite E.
    + unfold vendorPatchStatus. rewrite Hr, E. reflexivity.
Qed.

Lemma verification_opens_the_vendor_router_witness :
  (exists b',
     vendorPatchStatus sampleEnv theVendor
       (Some (verificationStatus
                (verifiedVendor sampleEnv anAdmin "verified" sampleVendorDoc)))
       (mkVendorStatusBody "confirmed" None) (Some createdBooking)
     = Saved b')
  /\ vendorPatchStatus sampleEnv theVendor
       (Some (verificationStatus
                (verifiedVendor sampleEnv anAdmin "pending" sampleVendorDoc)))
       (mkVendorStatusBody "confirmed" None) (Some createdBooking)
     = Reply 403 "Access Forbidden. Vendor not verified (Status: pending)".
Proof.
  split.
  - destruct (@verification_opens_the_vendor_router sampleEnv sampleEnv
                anAdmin theVendor "verified" sampleVendorDoc
                (mkVendorStatusBody "confirmed" None) createdBooking
                eq_refl eq_refl eq_refl) as [(_ & _ & H) | (N & _)].
    + exact H.
    + now elim N.
  - destruct (@verification_opens_the_vendor_router sampleEnv sampleEnv
                anAdmin theVendor "pending" sampleVendorDoc
                (mkVendorStatusBody "confirmed" None) createdBooking
                eq_refl eq_refl eq_refl) as [(E & _) | (_ & _ & H)].
    + discriminate E.
    + exact H.
Defined.

(** ** Pages of users *)

Lemma firstn_chunk {A} (a b : nat) (xs : list A) :
  firstn (a + b) xs = (firstn a xs ++ firstn b (skipn a xs))%list.
Proof.
  revert xs. induction a as [| a IH]; intro xs; [reflexivity |].
  destruct xs as [| x xs]; simpl.
  - now rewrite firstn_nil.
  - now rewrite IH.
Qed.

Lemma usersOfPage_eq (l : Z) (limit : option Z) (xs : list Account) (p : nat) :
  orDefault limit 10 = l -> 1 <= l -> (1 <= p)%nat ->
  usersOfPage limit xs p
  = firstn (Z.to_nat l) (skipn ((p - 1) * Z.to_nat l) xs).
Proof.
  intros Hl Hl1 Hp. unfold usersOfPage, getUsers. rewrite Hl.
  assert (Hd : orDefault (Some (Z.of_nat p)) 1 = Z.of_nat p).
  { unfold orDefault. destruct (Z.of_nat p) eqn:E; try reflexivity. lia. }
  rewrite Hd.
  assert (H1 : (1 <=? Z.of_nat p) = true) by (apply Z.leb_le; lia).
  assert (H2 : (1 <=? l) = true) by (apply Z.leb_le; lia).
  rewrite H1, H2. simpl.
  f_equal. f_equal. rewrite Z2Nat.inj_mul by lia. f_equal. lia.
Qed.

Lemma pages_prefix (l : Z) (limit : option Z) (xs : list Account) (k : nat) :
  orDefault limit 10 = l -> 1 <= l ->
  List.concat (List.map (usersOfPage limit xs) (seq 1 k))
  = firstn (k * Z.to_nat l) xs.
Proof.
  intros Hl Hl1. induction k as [| k IH]; [reflexivity |].
  rewrite seq_S, List.map_app, List.concat_app, IH. simpl.
  rewrite app_nil_r, (usersOfPage_eq (l := l)); auto; try lia.
  replace (S k - 1)%nat with k by lia.
  rewrite Nat.add_comm. symmetry. apply firstn_chunk.
Qed.

(** X25.  The pages of the user list cover the list: for a page size of at
    least 1 (10 when none is sent), the pages 1 to [totalPages] put one
    after the other are exactly the matching accounts in their order, each
    page has at most the page size, and [totalPages] is the number of pages
    in the answer for every page. *)
Theorem user_pages_cover
    (limit : option Z) (matching : list Account) (l : Z) :
  orDefault limit 10 = l ->
  1 <= l ->
  List.concat (List.map (usersOfPage limit matching)
            (seq 1 (Z.to_nat (ceilDiv (Z.of_nat (List.length matching)) l))))
  = matching
  /\ (forall p, (List.length (usersOfPage limit matching p)
                 <= Z.to_nat l)%nat)
  /\ (forall p pg, getUsers p limit matching = Some pg ->
        up_totalPages pg = ceilDiv (Z.of_nat (List.length matching)) l
        /\ up_totalUsers pg = Z.of_nat (List.length matching)).
Proof.
  intros Hl Hl1. split; [| split].
  - rewrite (pages_prefix (l := l)); auto.
    apply firstn_all2.
    set (n := List.length matching). unfold ceilDiv.
    assert (H : Z.of_nat n <= (Z.of_nat n + l - 1) / l * l).
    { pose proof (Z.div_mod (Z.of_nat n + l - 1) l ltac:(lia)) as D.
      pose proof (Z.mod_pos_bound (Z.of_nat n + l - 1) l ltac:(lia)) as M.
      nia. }
    assert (H0 : 0 <= (Z.of_nat n + l - 1) / l)
      by (apply Z.div_pos; lia).
    apply Nat2Z.inj_le. rewrite Nat2Z.inj_mul, !Z2Nat.id by lia. exact H.
  - intro p. unfold usersOfPage, getUsers. rewrite Hl.
    destruct ((1 <=? orDefault (Some (Z.of_nat p)) 1) && (1 <=? l));
      simpl; [apply firstn_le_length | lia].
  - intros p pg. unfold getUsers. rewrite Hl.
    destruct ((1 <=? orDefault p 1) && (1 <=? l)); [| discriminate].
    intro E. inversion E. simpl. auto.
Qed.

(** ** The printed code *)

Lemma of_uint_acc_bounds (l : Decimal.uint) : forall acc : positive,
  Z.pos acc * 10 ^ Z.of_nat (Decimal.nb_digits l)
  <= Z.pos (Pos.of_uint_acc l acc)
  < (Z.pos acc + 1) * 10 ^ Z.of_nat (Decimal.nb_digits l).
Proof.
  induction l as [| l IH | l IH | l IH | l IH | l IH | l IH | l IH | l IH
                  | l IH | l IH]; intro acc;
    [simpl; lia | ..];
    cbn [Decimal.nb_digits Pos.of_uint_acc];
    rewrite Nat2Z.inj_succ, Z.pow_succ_r by lia;
    match goal with
    | |- _ <= Z.pos (Pos.of_uint_acc _ ?a) < _ => specialize (IH a)
    end;
    assert (0 < 10 ^ Z.of_nat (Decimal.nb_digits l))
      by (apply Z.pow_pos_nonneg; lia);
    nia.
Qed.

Lemma of_uint_bounds (d : Decimal.uint) :
  Decimal.unorm d = d -> d <> Decimal.zero ->
  10 ^ (Z.of_nat (Decimal.nb_digits d) - 1) <= Z.of_N (Pos.of_uint d)
  < 10 ^ Z.of_nat (Decimal.nb_digits d).
Proof.
  intros Hn Hz.
  destruct d as [| l | l | l | l | l | l | l | l | l | l];
    [discriminate Hn | exfalso | ..].
  { rewrite DecimalFacts.unorm_D0 in Hn.
    unfold Decimal.unorm in Hn.
    destruct (Decimal.nzhead l) eqn:E; try discriminate Hn.
    - injection Hn as <-. now apply Hz.
    - injection Hn as ->. now apply DecimalFacts.nzhead_nonzero in E. }
  all: cbn [Decimal.nb_digits Pos.of_uint]; rewrite Nat2Z.inj_succ;
    replace (Z.succ (Z.of_nat (Decimal.nb_digits l)) - 1)
      with (Z.of_nat (Decimal.nb_digits l)) by lia;
    rewrite Z.pow_succ_r by lia;
    match goal with
    | |- _ <= Z.of_N (N.pos (Pos.of_uint_acc _ ?a)) < _ =>
        pose proof (of_uint_acc_bounds l a) as B
    end;
    assert (0 < 10 ^ Z.of_nat (Decimal.nb_digits l))
      by (apply Z.pow_pos_nonneg; lia);
    cbn [Z.of_N]; nia.
Qed.

Lemma to_uint_digits (p : positive) (n : nat) :
  10 ^ (Z.of_nat n - 1) <= Z.pos p < 10 ^ Z.of_nat n ->
  Decimal.nb_digits (Pos.to_uint p) = n.
Proof.
  intros [Lo Hi].
  assert (Hn : Decimal.unorm (Pos.to_uint p) = Pos.to_uint p).
  { rewrite <- DecimalPos.Unsigned.to_of, DecimalPos.Unsigned.of_to.
    reflexivity. }
  pose proof (of_uint_bounds Hn (@DecimalPos.Unsigned.to_uint_nonzero p))
    as [Lo' Hi'].
  rewrite DecimalPos.Unsigned.of_to in Lo', Hi'. cbn [Z.of_N] in Lo', Hi'.
  set (m := Decimal.nb_digits (Pos.to_uint p)) in *.
  destruct (Nat.lt_trichotomy m n) as [L | [E | G]]; [| exact E |]; exfalso.
  - assert (10 ^ Z.of_nat m <= 10 ^ (Z.of_nat n - 1))
      by (apply Z.pow_le_mono_r; lia).
    lia.
  - assert (10 ^ Z.of_nat n <= 10 ^ (Z.of_nat m - 1))
      by (apply Z.pow_le_mono_r; lia).
    lia.
Qed.

Lemma string_of_uint_length (d : Decimal.uint) :
  d <> Decimal.Nil ->
  String.length (NilZero.string_of_uint d) = Decimal.nb_digits d.
Proof.
  intro H.
  assert (E : forall u, String.length (NilEmpty.string_of_uint u)
                        = Decimal.nb_digits u).
  { induction u; simpl; congruence. }
  destruct d; [now elim H | ..]; apply E.
Qed.

Lemma toString_length (z : Z) (n : nat) :
  (1 <= n)%nat ->
  10 ^ (Z.of_nat n - 1) <= z < 10 ^ Z.of_nat n ->
  String.length (toString z) = n.
Proof.
  intros Hn H.
  assert (0 < z).
  { assert (0 < 10 ^ (Z.of_nat n - 1)); [| lia].
    apply Z.pow_pos_nonneg; lia. }
  destruct z as [| p | p]; try lia.
  unfold toString. cbn [Z.to_int NilZero.string_of_int].
  rewrite string_of_uint_length
    by apply DecimalPos.Unsigned.to_uint_nonnil.
  now apply to_uint_digits.
Qed.

Lemma toString_inj (a b : Z) : toString a = toString b -> a = b.
Proof.
  unfold toString. intro E.
  apply DecimalZ.to_int_inj.
  assert (N : forall z, Z.to_int z <> Decimal.Pos Decimal.Nil
                        /\ Z.to_int z <> Decimal.Neg Decimal.Nil).
  { intros [| p | p]; split; try discriminate; cbn [Z.to_int];
      intro H; injection H as H;
      now apply DecimalPos.Unsigned.to_uint_nonnil in H. }
  assert (S : Some (Z.to_int a) = Some (Z.to_int b)).
  { rewrite <- (@NilZero.isi (Z.to_int a)) by apply N.
    rewrite <- (@NilZero.isi (Z.to_int b)) by apply N.
    now rewrite E. }
  now injection S.
Qed.

(** X26.  A generated code has six characters, for every draw of the random
    source, and two draws give the same code only when they are equal. *)
Theorem generated_code_has_six_digits (env env' : Env) :
  0 <= draw env < 900000 ->
  String.length (generateOtp env) = 6%nat
  /\ (generateOtp env = generateOtp env' -> draw env = draw env').
Proof.
  intro H. split.
  - unfold generateOtp. apply toString_length; [lia |].
    change (10 ^ (Z.of_nat 6 - 1)) with 100000.
    change (10 ^ Z.of_nat 6) with 1000000. lia.
  - unfold generateOtp. intro E. apply toString_inj in E. lia.
Qed.

Lemma generated_code_has_six_digits_witness :
  String.length (generateOtp sampleEnv) = 6%nat
  /\ (generateOtp sampleEnv = generateOtp earlyEnv
      -> draw sampleEnv = draw earlyEnv).
Proof.
  apply (@generated_code_has_six_digits sampleEnv earlyEnv).
  simpl. lia.
Defined.

Lemma user_pages_cover_witness :
  List.concat (List.map (usersOfPage (Some 2) sampleAccounts)
            (seq 1 (Z.to_nat (ceilDiv (Z.of_nat (List.length sampleAccounts))
                                2))))
  = sampleAccounts
  /\ (forall p, (List.length (usersOfPage (Some 2%Z) sampleAccounts p)
                 <= Z.to_nat 2%Z)%nat)
  /\ (forall p pg, getUsers p (Some 2) sampleAccounts = Some pg ->
        up_totalPages pg = ceilDiv (Z.of_nat (List.length sampleAccounts)) 2
        /\ up_totalUsers pg = Z.of_nat (List.length sampleAccounts)).
Proof.
  apply (@user_pages_cover (Some 2) sampleAccounts 2).
  - reflexivity.
  - lia.
Defined.
